(** * Wax compression shims

    A shallow embedding of [Sources/WaxCoreCompressionC/wax_compression_shims.c]:
    the four buffer-to-buffer entry points [wax_lz4_compress],
    [wax_lz4_decompress], [wax_deflate_compress] and [wax_deflate_decompress],
    which validate their arguments and pass them on to liblz4 and zlib.

    The two wrapped libraries are not part of the repository.  They enter the
    development as interfaces ([LZ4], [Zlib]): one operation per function the
    shims call, with the C return type kept as a range fact.  What the shims
    themselves decide (argument checks, the order of the checks, the return
    codes, what is stored through the length pointer) is proved for every
    implementation of the interfaces.  What depends on the codecs (round trips)
    is proved for every implementation that honours the contract published in
    [lz4.h] and [zlib.h] ([LZ4_contract], [Zlib_contract]). *)

From Stdlib Require Import ZArith NArith List Bool Lia.
From Stdlib Require Import Strings.Byte.
Import ListNotations.

Local Open Scope Z_scope.

(** ** C data *)

(** A buffer is the list of the bytes it holds; its length is the size of the
    allocation. *)
Definition bytes : Type := list byte.

(** A pointer is modelled by what it points to, [None] being [NULL].  The
    objects behind [src], [dst] and the length pointer are taken to be
    pairwise disjoint. *)
Definition ptr (A : Type) : Type := option A.

Definition NULL {A : Type} : ptr A := None.

(** [int] and [int32_t] are 32-bit signed and are carried by [Z]; [size_t] and
    zlib's [uLong] are 64-bit unsigned and are carried by [N]. *)
Definition INT32_MAX : Z := 2147483647.
Definition INT32_MIN : Z := -2147483648.
Definition UINT32_MAX : Z := 4294967295.
Definition SIZE_WIDTH : Z := 64.

Definition is_int (z : Z) : Prop := INT32_MIN <= z <= INT32_MAX.

(** [(int)n] for [n : size_t]: reduction modulo [2^32], read as signed. *)
Definition int_of_size_t (n : N) : Z :=
  (Z.of_N n + 2 ^ 31) mod 2 ^ 32 - 2 ^ 31.

(** [(size_t)i] for [i : int] (also for the constants [INT32_MAX] and
    [UINT32_MAX]): reduction modulo [2^64]. *)
Definition size_t_of_int (i : Z) : N := Z.to_N (i mod 2 ^ SIZE_WIDTH).

(** [(uLong)n] and [(size_t)u]: both types are [unsigned long]. *)
Definition uLong_of_size_t (n : N) : N := n.
Definition size_t_of_uLong (u : N) : N := u.

(** [data] stored at the start of [buf]; the rest of [buf] is left alone. *)
Definition write (data buf : bytes) : bytes := data ++ skipn (length data) buf.

(** ** The wrapped libraries *)

(** zlib's status codes and the level [compress2] is given. *)
Definition Z_OK : Z := 0.
Definition Z_STREAM_ERROR : Z := -2.
Definition Z_DATA_ERROR : Z := -3.
Definition Z_MEM_ERROR : Z := -4.
Definition Z_BUF_ERROR : Z := -5.
Definition Z_DEFAULT_COMPRESSION : Z := -1.

(** [lz4.h].  A function that writes to [dst] returns the buffer as the call
    left it next to its C result.  Arguments are in the order of the C
    prototypes: [src], [dst], [srcSize], [dstCapacity]. *)
Class LZ4 : Type := {
  LZ4_compressBound : Z -> Z;
  LZ4_compress_default : bytes -> bytes -> Z -> Z -> Z * bytes;
  LZ4_decompress_safe : bytes -> bytes -> Z -> Z -> Z * bytes;
  LZ4_compressBound_int : forall n, is_int (LZ4_compressBound n);
  LZ4_compress_default_int :
    forall s d n c, is_int (fst (LZ4_compress_default s d n c));
  LZ4_decompress_safe_int :
    forall s d n c, is_int (fst (LZ4_decompress_safe s d n c))
}.

(** [zlib.h].  Arguments in the order of the C prototypes: [dest], [*destLen],
    [source], [sourceLen] (and [level]); the result is the status, the value
    left in [*destLen] and the buffer.  [compressBound] is not called by the
    shims; callers size the output buffer with it. *)
Class Zlib : Type := {
  compressBound : N -> N;
  compress2 : bytes -> N -> bytes -> N -> Z -> Z * N * bytes;
  uncompress : bytes -> N -> bytes -> N -> Z * N * bytes
}.

(** ** What a call leaves behind *)

(** One entry per call into a library, with the scalar arguments and the
    result, in call order. *)
Inductive lib_call : Type :=
| Call_LZ4_compressBound (inputSize result : Z)
| Call_LZ4_compress_default (srcSize dstCapacity result : Z)
| Call_LZ4_decompress_safe (compressedSize dstCapacity result : Z)
| Call_compress2 (destLen sourceLen : N) (level result : Z) (destLen' : N)
| Call_uncompress (destLen sourceLen : N) (result : Z) (destLen' : N).

(** The return code, the output buffer and the length cell as the caller finds
    them after the call, and the library calls that were made. *)
Record outcome : Type := {
  ret : Z;
  dst_mem : ptr bytes;
  len_mem : ptr N;
  calls : list lib_call
}.

(** ** The shims *)

(** [wax_lz4_compress], lines 6-39. *)
Definition wax_lz4_compress {L : LZ4}
  (src : ptr bytes) (src_len : N) (dst : ptr bytes) (dst_cap : N)
  (out_len : ptr N) : outcome :=
  match src, dst, out_len with
  | Some s, Some d, Some _ =>
    if (size_t_of_int INT32_MAX <? src_len)%N
       || (size_t_of_int INT32_MAX <? dst_cap)%N
    then {| ret := -2; dst_mem := dst; len_mem := out_len; calls := [] |}
    else
      let bound := LZ4_compressBound (int_of_size_t src_len) in
      let log := [Call_LZ4_compressBound (int_of_size_t src_len) bound] in
      if bound <=? 0
      then {| ret := -3; dst_mem := dst; len_mem := out_len; calls := log |}
      else if (dst_cap <? size_t_of_int bound)%N
      then {| ret := -4; dst_mem := dst; len_mem := out_len; calls := log |}
      else
        let '(written, d') :=
          LZ4_compress_default s d
            (int_of_size_t src_len) (int_of_size_t dst_cap) in
        let log' :=
          log ++ [Call_LZ4_compress_default
                    (int_of_size_t src_len) (int_of_size_t dst_cap) written] in
        if written <=? 0
        then {| ret := -5; dst_mem := Some d'; len_mem := out_len;
                calls := log' |}
        else {| ret := 0; dst_mem := Some d';
                len_mem := Some (size_t_of_int written); calls := log' |}
  | _, _, _ =>
    {| ret := -1; dst_mem := dst; len_mem := out_len; calls := [] |}
  end.

(** [wax_lz4_decompress], lines 41-67.  There is no length pointer: the
    length cell of the outcome is [NULL]. *)
Definition wax_lz4_decompress {L : LZ4}
  (src : ptr bytes) (src_len : N) (dst : ptr bytes) (dst_len : N) : outcome :=
  match src, dst with
  | Some s, Some d =>
    if (size_t_of_int INT32_MAX <? src_len)%N
       || (size_t_of_int INT32_MAX <? dst_len)%N
    then {| ret := -2; dst_mem := dst; len_mem := NULL; calls := [] |}
    else
      let '(written, d') :=
        LZ4_decompress_safe s d
          (int_of_size_t src_len) (int_of_size_t dst_len) in
      let log :=
        [Call_LZ4_decompress_safe
           (int_of_size_t src_len) (int_of_size_t dst_len) written] in
      if written <? 0
      then {| ret := -3; dst_mem := Some d'; len_mem := NULL; calls := log |}
      else if negb (size_t_of_int written =? dst_len)%N
      then {| ret := -4; dst_mem := Some d'; len_mem := NULL; calls := log |}
      else {| ret := 0; dst_mem := Some d'; len_mem := NULL; calls := log |}
  | _, _ =>
    {| ret := -1; dst_mem := dst; len_mem := NULL; calls := [] |}
  end.

(** [wax_deflate_compress], lines 69-95. *)
Definition wax_deflate_compress {Zl : Zlib}
  (src : ptr bytes) (src_len : N) (dst : ptr bytes)
  (inout_dst_len : ptr N) : outcome :=
  match src, dst, inout_dst_len with
  | Some s, Some d, Some cap =>
    if (size_t_of_int UINT32_MAX <? src_len)%N
       || (size_t_of_int UINT32_MAX <? cap)%N
    then {| ret := -2; dst_mem := dst; len_mem := inout_dst_len; calls := [] |}
    else
      let out_len := uLong_of_size_t cap in
      let '(zrc, out_len', d') :=
        compress2 d out_len s (uLong_of_size_t src_len)
          Z_DEFAULT_COMPRESSION in
      let log :=
        [Call_compress2 out_len (uLong_of_size_t src_len)
           Z_DEFAULT_COMPRESSION zrc out_len'] in
      if negb (zrc =? Z_OK)
      then {| ret := -3; dst_mem := Some d'; len_mem := inout_dst_len;
              calls := log |}
      else {| ret := 0; dst_mem := Some d';
              len_mem := Some (size_t_of_uLong out_len'); calls := log |}
  | _, _, _ =>
    {| ret := -1; dst_mem := dst; len_mem := inout_dst_len; calls := [] |}
  end.

(** [wax_deflate_decompress], lines 97-122. *)
Definition wax_deflate_decompress {Zl : Zlib}
  (src : ptr bytes) (src_len : N) (dst : ptr bytes)
  (inout_dst_len : ptr N) : outcome :=
  match src, dst, inout_dst_len with
  | Some s, Some d, Some cap =>
    if (size_t_of_int UINT32_MAX <? src_len)%N
       || (size_t_of_int UINT32_MAX <? cap)%N
    then {| ret := -2; dst_mem := dst; len_mem := inout_dst_len; calls := [] |}
    else
      let out_len := uLong_of_size_t cap in
      let '(zrc, out_len', d') :=
        uncompress d out_len s (uLong_of_size_t src_len) in
      let log :=
        [Call_uncompress out_len (uLong_of_size_t src_len) zrc out_len'] in
      if negb (zrc =? Z_OK)
      then {| ret := -3; dst_mem := Some d'; len_mem := inout_dst_len;
              calls := log |}
      else {| ret := 0; dst_mem := Some d';
              len_mem := Some (size_t_of_uLong out_len'); calls := log |}
  | _, _, _ =>
    {| ret := -1; dst_mem := dst; len_mem := inout_dst_len; calls := [] |}
  end.

(** ** Return codes *)

(** The four operations and the failure kinds of the specification.  The C
    code returns bare numbers; [failure] reads a code the way the operation
    that returned it uses it (each [return -k;] of the source, in order). *)
Inductive operation : Type :=
| FastCompress
| FastDecompress
| DeflateCompress
| DeflateDecompress.

Inductive error_kind : Type :=
| InvalidArgument
| SizeLimitExceeded
| BoundComputationFailed
| OutputTooSmall
| CompressionFailed
| DecompressionFailed
| LengthMismatch.

Definition failure (op : operation) (code : Z) : option error_kind :=
  match op, code with
  | _, (-1) => Some InvalidArgument
  | _, (-2) => Some SizeLimitExceeded
  | FastCompress, (-3) => Some BoundComputationFailed
  | FastCompress, (-4) => Some OutputTooSmall
  | FastCompress, (-5) => Some CompressionFailed
  | FastDecompress, (-3) => Some DecompressionFailed
  | FastDecompress, (-4) => Some LengthMismatch
  | DeflateCompress, (-3) => Some CompressionFailed
  | DeflateDecompress, (-3) => Some DecompressionFailed
  | _, _ => None
  end.

(** ** The published contracts of the libraries *)

Definition LZ4_MAX_INPUT_SIZE : Z := 0x7E000000.

(** [lz4.h]: the bound is the macro [LZ4_COMPRESSBOUND]; compression "is
    guaranteed to succeed if [dstCapacity >= LZ4_compressBound(srcSize)]" and
    returns the number of bytes written, at most [dstCapacity];
    [LZ4_decompress_safe] returns the number of bytes decoded and a negative
    value when the destination is too small.  Only the first [srcSize] bytes
    of the source are read. *)
Class LZ4_contract (L : LZ4) : Prop := {
  LZ4_compressBound_spec :
    forall n,
      LZ4_compressBound n =
      if (n <? 0) || (LZ4_MAX_INPUT_SIZE <? n) then 0 else n + n / 255 + 16;
  LZ4_compress_default_fits :
    forall s d cap,
      0 < LZ4_compressBound (Z.of_nat (length s)) ->
      LZ4_compressBound (Z.of_nat (length s)) <= cap <= INT32_MAX ->
      cap <= Z.of_nat (length d) ->
      0 < fst (LZ4_compress_default s d (Z.of_nat (length s)) cap) <= cap;
  LZ4_decompress_safe_inverts :
    forall s d cap w d' c e m,
      LZ4_compress_default s d (Z.of_nat (length s)) cap = (w, d') ->
      0 < w ->
      firstn (Z.to_nat w) c = firstn (Z.to_nat w) d' ->
      Z.of_nat (length s) <= m <= Z.of_nat (length e) ->
      exists e',
        LZ4_decompress_safe c e w m = (Z.of_nat (length s), e') /\
        firstn (length s) e' = s;
  LZ4_decompress_safe_overflow :
    forall s d cap w d' c e m,
      LZ4_compress_default s d (Z.of_nat (length s)) cap = (w, d') ->
      0 < w ->
      firstn (Z.to_nat w) c = firstn (Z.to_nat w) d' ->
      0 <= m < Z.of_nat (length s) ->
      fst (LZ4_decompress_safe c e w m) < 0
}.

(** [zlib.h]: [compress2] returns [Z_OK] when the destination holds at least
    [compressBound(sourceLen)] bytes and leaves the compressed size, at most
    the capacity, in [*destLen]; [uncompress] returns [Z_OK] when the
    destination can hold the whole of the data and leaves its size in
    [*destLen]. *)
Class Zlib_contract (Zl : Zlib) : Prop := {
  compress2_fits :
    forall s d cap,
      (compressBound (N.of_nat (length s)) <= cap)%N ->
      (cap <= N.of_nat (length d))%N ->
      fst (fst (compress2 d cap s (N.of_nat (length s))
                  Z_DEFAULT_COMPRESSION)) = Z_OK;
  compress2_within :
    forall s d cap n level w d',
      compress2 d cap s n level = (Z_OK, w, d') -> (w <= cap)%N;
  uncompress_inverts :
    forall s d cap level w d' c e m,
      compress2 d cap s (N.of_nat (length s)) level = (Z_OK, w, d') ->
      firstn (N.to_nat w) c = firstn (N.to_nat w) d' ->
      (N.of_nat (length s) <= m <= N.of_nat (length e))%N ->
      exists e',
        uncompress e m c w = (Z_OK, N.of_nat (length s), e') /\
        firstn (length s) e' = s
}.

(** ** A reference implementation of the interfaces

    The smallest codec that honours both contracts: the data stored verbatim
    behind a one-byte header.  It gives the theorems below concrete inputs to
    run on. *)
Module Stored.

Definition header : byte := x00.

Definition has_header (c : bytes) : bool :=
  match c with
  | h :: _ => Byte.eqb h header
  | [] => false
  end.

Definition bound (n : Z) : Z :=
  if (n <? 0) || (LZ4_MAX_INPUT_SIZE <? n) then 0 else n + n / 255 + 16.

Definition lz4_compress (s d : bytes) (n cap : Z) : Z * bytes :=
  if (0 <=? n) && (n <=? Z.of_nat (length s)) && (n + 1 <=? cap)
     && (n + 1 <=? INT32_MAX)
  then (n + 1, write (header :: firstn (Z.to_nat n) s) d)
  else (0, d).

Definition lz4_decompress (c e : bytes) (w m : Z) : Z * bytes :=
  if (1 <=? w) && (w <=? INT32_MAX) && (w <=? Z.of_nat (length c))
     && has_header c && (w - 1 <=? m)
  then (w - 1, write (firstn (Z.to_nat (w - 1)) (skipn 1 c)) e)
  else (-1, e).

Definition deflate_bound (n : N) : N :=
  (n + N.shiftr n 12 + N.shiftr n 14 + N.shiftr n 25 + 13)%N.

Definition deflate_compress (d : bytes) (cap : N) (s : bytes) (n : N)
  (level : Z) : Z * N * bytes :=
  if negb ((-1 <=? level) && (level <=? 9)) then (Z_STREAM_ERROR, cap, d)
  else if (n <=? N.of_nat (length s))%N && (n + 1 <=? cap)%N
  then (Z_OK, (n + 1)%N, write (header :: firstn (N.to_nat n) s) d)
  else (Z_BUF_ERROR, cap, d).

Definition deflate_uncompress (e : bytes) (m : N) (c : bytes) (w : N)
  : Z * N * bytes :=
  if negb ((1 <=? w)%N && (w <=? N.of_nat (length c))%N) then (Z_BUF_ERROR, m, e)
  else if negb (has_header c) then (Z_DATA_ERROR, m, e)
  else if (w - 1 <=? m)%N
  then (Z_OK, (w - 1)%N, write (firstn (N.to_nat (w - 1)) (skipn 1 c)) e)
  else (Z_BUF_ERROR, m, e).

End Stored.

(** ** The paths through the shims

    Each shim is a chain of early returns.  The relations below list the
    paths, one constructor per [return], with the casts resolved by the checks
    that precede them; each shim is then shown to follow its relation. *)

Inductive lz4_compress_path {L : LZ4}
  (src : ptr bytes) (src_len : N) (dst : ptr bytes) (dst_cap : N)
  (out_len : ptr N) : outcome -> Prop :=
| LC_null :
    src = NULL \/ dst = NULL \/ out_len = NULL ->
    lz4_compress_path src src_len dst dst_cap out_len
      {| ret := -1; dst_mem := dst; len_mem := out_len; calls := [] |}
| LC_limit s d o :
    src = Some s -> dst = Some d -> out_len = Some o ->
    (2147483647 < src_len \/ 2147483647 < dst_cap)%N ->
    lz4_compress_path src src_len dst dst_cap out_len
      {| ret := -2; dst_mem := dst; len_mem := out_len; calls := [] |}
| LC_bound s d o :
    src = Some s -> dst = Some d -> out_len = Some o ->
    (src_len <= 2147483647)%N -> (dst_cap <= 2147483647)%N ->
    LZ4_compressBound (Z.of_N src_len) <= 0 ->
    lz4_compress_path src src_len dst dst_cap out_len
      {| ret := -3; dst_mem := dst; len_mem := out_len;
         calls := [Call_LZ4_compressBound (Z.of_N src_len)
                     (LZ4_compressBound (Z.of_N src_len))] |}
| LC_small s d o :
    src = Some s -> dst = Some d -> out_len = Some o ->
    (src_len <= 2147483647)%N -> (dst_cap <= 2147483647)%N ->
    0 < LZ4_compressBound (Z.of_N src_len) ->
    Z.of_N dst_cap < LZ4_compressBound (Z.of_N src_len) ->
    lz4_compress_path src src_len dst dst_cap out_len
      {| ret := -4; dst_mem := dst; len_mem := out_len;
         calls := [Call_LZ4_compressBound (Z.of_N src_len)
                     (LZ4_compressBound (Z.of_N src_len))] |}
| LC_failed s d o written d' :
    src = Some s -> dst = Some d -> out_len = Some o ->
    (src_len <= 2147483647)%N -> (dst_cap <= 2147483647)%N ->
    0 < LZ4_compressBound (Z.of_N src_len) <= Z.of_N dst_cap ->
    LZ4_compress_default s d (Z.of_N src_len) (Z.of_N dst_cap)
      = (written, d') ->
    written <= 0 ->
    lz4_compress_path src src_len dst dst_cap out_len
      {| ret := -5; dst_mem := Some d'; len_mem := out_len;
         calls := [Call_LZ4_compressBound (Z.of_N src_len)
                     (LZ4_compressBound (Z.of_N src_len));
                   Call_LZ4_compress_default (Z.of_N src_len)
                     (Z.of_N dst_cap) written] |}
| LC_ok s d o written d' :
    src = Some s -> dst = Some d -> out_len = Some o ->
    (src_len <= 2147483647)%N -> (dst_cap <= 2147483647)%N ->
    0 < LZ4_compressBound (Z.of_N src_len) <= Z.of_N dst_cap ->
    LZ4_compress_default s d (Z.of_N src_len) (Z.of_N dst_cap)
      = (written, d') ->
    0 < written ->
    lz4_compress_path src src_len dst dst_cap out_len
      {| ret := 0; dst_mem := Some d'; len_mem := Some (Z.to_N written);
         calls := [Call_LZ4_compressBound (Z.of_N src_len)
                     (LZ4_compressBound (Z.of_N src_len));
                   Call_LZ4_compress_default (Z.of_N src_len)
                     (Z.of_N dst_cap) written] |}.

Inductive lz4_decompress_path {L : LZ4}
  (src : ptr bytes) (src_len : N) (dst : ptr bytes) (dst_len : N)
  : outcome -> Prop :=
| LD_null :
    src = NULL \/ dst = NULL ->
    lz4_decompress_path src src_len dst dst_len
      {| ret := -1; dst_mem := dst; len_mem := NULL; calls := [] |}
| LD_limit s d :
    src = Some s -> dst = Some d ->
    (2147483647 < src_len \/ 2147483647 < dst_len)%N ->
    lz4_decompress_path src src_len dst dst_len
      {| ret := -2; dst_mem := dst; len_mem := NULL; calls := [] |}
| LD_failed s d written d' :
    src = Some s -> dst = Some d ->
    (src_len <= 2147483647)%N -> (dst_len <= 2147483647)%N ->
    LZ4_decompress_safe s d (Z.of_N src_len) (Z.of_N dst_len)
      = (written, d') ->
    written < 0 ->
    lz4_decompress_path src src_len dst dst_len
      {| ret := -3; dst_mem := Some d'; len_mem := NULL;
         calls := [Call_LZ4_decompress_safe (Z.of_N src_len)
                     (Z.of_N dst_len) written] |}
| LD_mismatch s d written d' :
    src = Some s -> dst = Some d ->
    (src_len <= 2147483647)%N -> (dst_len <= 2147483647)%N ->
    LZ4_decompress_safe s d (Z.of_N src_len) (Z.of_N dst_len)
      = (written, d') ->
    0 <= written -> written <> Z.of_N dst_len ->
    lz4_decompress_path src src_len dst dst_len
      {| ret := -4; dst_mem := Some d'; len_mem := NULL;
         calls := [Call_LZ4_decompress_safe (Z.of_N src_len)
                     (Z.of_N dst_len) written] |}
| LD_ok s d d' :
    src = Some s -> dst = Some d ->
    (src_len <= 2147483647)%N -> (dst_len <= 2147483647)%N ->
    LZ4_decompress_safe s d (Z.of_N src_len) (Z.of_N dst_len)
      = (Z.of_N dst_len, d') ->
    lz4_decompress_path src src_len dst dst_len
      {| ret := 0; dst_mem := Some d'; len_mem := NULL;
         calls := [Call_LZ4_decompress_safe (Z.of_N src_len)
                     (Z.of_N dst_len) (Z.of_N dst_len)] |}.

(** The two DEFLATE shims differ only in the library function they call:
    [run] is that call with the shim's arguments supplied, [entry] its log
    entry. *)
Inductive deflate_path
  (run : bytes -> N -> bytes -> N -> Z * N * bytes)
  (entry : N -> N -> Z -> N -> lib_call)
  (src : ptr bytes) (src_len : N) (dst : ptr bytes) (inout_dst_len : ptr N)
  : outcome -> Prop :=
| DF_null :
    src = NULL \/ dst = NULL \/ inout_dst_len = NULL ->
    deflate_path run entry src src_len dst inout_dst_len
      {| ret := -1; dst_mem := dst; len_mem := inout_dst_len; calls := [] |}
| DF_limit s d cap :
    src = Some s -> dst = Some d -> inout_dst_len = Some cap ->
    (4294967295 < src_len \/ 4294967295 < cap)%N ->
    deflate_path run entry src src_len dst inout_dst_len
      {| ret := -2; dst_mem := dst; len_mem := inout_dst_len; calls := [] |}
| DF_failed s d cap zrc out_len' d' :
    src = Some s -> dst = Some d -> inout_dst_len = Some cap ->
    (src_len <= 4294967295)%N -> (cap <= 4294967295)%N ->
    run d cap s src_len = (zrc, out_len', d') ->
    zrc <> Z_OK ->
    deflate_path run entry src src_len dst inout_dst_len
      {| ret := -3; dst_mem := Some d'; len_mem := inout_dst_len;
         calls := [entry cap src_len zrc out_len'] |}
| DF_ok s d cap out_len' d' :
    src = Some s -> dst = Some d -> inout_dst_len = Some cap ->
    (src_len <= 4294967295)%N -> (cap <= 4294967295)%N ->
    run d cap s src_len = (Z_OK, out_len', d') ->
    deflate_path run entry src src_len dst inout_dst_len
      {| ret := 0; dst_mem := Some d'; len_mem := Some out_len';
         calls := [entry cap src_len Z_OK out_len'] |}.

(** ** Properties the claims name *)

(** One of two [size_t] values is above the limit of the codec. *)
Definition exceeds (limit : Z) (a b : N) : Prop :=
  limit < Z.of_N a \/ limit < Z.of_N b.

(** [FastDecompress(FastCompress(b)) == b]: compressing [b] into [d] (declared
    capacity [cap]) succeeds and reports a length [w]; decompressing those [w]
    bytes, from any buffer [c] that starts with them, into [e] with the
    expected length [|b|] succeeds and leaves [b] at the start of [e]. *)
Definition fast_round_trip {L : LZ4} (b d e : bytes) (cap o : N) : Prop :=
  let r :=
    wax_lz4_compress (Some b) (N.of_nat (length b)) (Some d) cap (Some o) in
  ret r = 0 /\
  exists w d',
    len_mem r = Some w /\ dst_mem r = Some d' /\
    forall c : bytes,
      firstn (N.to_nat w) c = firstn (N.to_nat w) d' ->
      let r' :=
        wax_lz4_decompress (Some c) w (Some e) (N.of_nat (length b)) in
      ret r' = 0 /\
      exists e', dst_mem r' = Some e' /\ firstn (length b) e' = b.

(** [DeflateDecompress(DeflateCompress(b)) == b], the output capacity of the
    decompression being any [m] that holds [b] and fits [e]; on return the
    length cell holds [|b|]. *)
Definition deflate_round_trip {Zl : Zlib} (b d e : bytes) (cap : N) : Prop :=
  let r :=
    wax_deflate_compress (Some b) (N.of_nat (length b)) (Some d) (Some cap) in
  ret r = 0 /\
  exists w d',
    len_mem r = Some w /\ dst_mem r = Some d' /\
    forall (c : bytes) (m : N),
      firstn (N.to_nat w) c = firstn (N.to_nat w) d' ->
      (N.of_nat (length b) <= m <= N.of_nat (length e))%N ->
      Z.of_N m <= UINT32_MAX ->
      let r' := wax_deflate_decompress (Some c) w (Some e) (Some m) in
      ret r' = 0 /\ len_mem r' = Some (N.of_nat (length b)) /\
      exists e', dst_mem r' = Some e' /\ firstn (length b) e' = b.

(** ** Tactics *)

Ltac null_path := constructor; unfold NULL; tauto.

(** Case analysis on the path a call took: [on_path lemma] replaces the call
    in the goal by the outcome of each path in turn. *)
Ltac on_path P :=
  let H := fresh "Hpath" in
  pose proof P as H;
  match type of H with
  | _ ?r => let o := fresh "out" in
            set (o := r) in *; clearbody o; destruct H
  end;
  cbn [ret dst_mem len_mem calls] in *;
  repeat match goal with
         | E : Some ?a = Some ?b |- _ =>
           injection E as E; try subst b; try subst a
         | E : ?p = Some _ |- _ => is_var p; subst p
         end.

(** Closed goals about concrete calls are settled by running the model. *)
Ltac by_evaluation :=
  first
    [ lia
    | simpl; lia
    | vm_compute; repeat split;
      first [reflexivity | discriminate | left; reflexivity] ].

Ltac same_call :=
  match goal with
  | E1 : ?f = (_, _), E2 : ?f = (_, _) |- _ =>
    rewrite E1 in E2; injection E2; intros; subst; clear E1
  end.

(** Decide the tests left in the goal; the branch that contradicts the path
    is closed by arithmetic. *)
Ltac decide_tests :=
  repeat match goal with
         | |- context [if ?b then _ else _] => destruct b eqn:?
         end;
  try reflexivity;
  exfalso;
  repeat match goal with
         | H : (_ <? _) = true |- _ => apply Z.ltb_lt in H
         | H : (_ <? _) = false |- _ => apply Z.ltb_ge in H
         | H : (_ =? _) = true |- _ => apply Z.eqb_eq in H
         | H : (_ =? _) = false |- _ => apply Z.eqb_neq in H
         end;
  solve [lia | congruence].

Ltac no_null := exfalso; unfold NULL in *; intuition discriminate.

Ltac null_iff :=
  unfold NULL in *; simpl failure;
  split; [intros Hf; first [discriminate Hf | tauto]
         | intros Hn; first [reflexivity | intuition congruence]].

Ltac size_limit :=
  unfold exceeds, INT32_MAX, UINT32_MAX, NULL in *; simpl failure;
  first
    [ solve [exfalso; intuition discriminate]
    | split;
      [ split; intros Hx; first [reflexivity | discriminate Hx | lia]
      | intros Hx; first [reflexivity | lia] ] ].

(** ** Casts *)

Lemma size_t_of_INT32_MAX : size_t_of_int INT32_MAX = 2147483647%N.
Proof. reflexivity. Qed.

Lemma size_t_of_UINT32_MAX : size_t_of_int UINT32_MAX = 4294967295%N.
Proof. reflexivity. Qed.

(** A [size_t] that passed the [INT32_MAX] check keeps its value as an [int]. *)
Lemma int_of_size_t_small (n : N) :
  (n <= 2147483647)%N -> int_of_size_t n = Z.of_N n.
Proof.
  intros Hn. unfold int_of_size_t.
  rewrite Z.mod_small; lia.
Qed.

(** A non-negative [int] keeps its value as a [size_t]. *)
Lemma size_t_of_int_nonneg (i : Z) :
  is_int i -> 0 <= i -> size_t_of_int i = Z.to_N i.
Proof.
  intros [_ Hmax] Hpos. unfold size_t_of_int, SIZE_WIDTH.
  unfold INT32_MAX in Hmax. rewrite Z.mod_small; [reflexivity | lia].
Qed.

Lemma size_limit_false (a b : N) (lim : N) :
  ((lim <? a) || (lim <? b))%N = false <-> (a <= lim /\ b <= lim)%N.
Proof.
  rewrite orb_false_iff, !N.ltb_ge. reflexivity.
Qed.

Lemma size_limit_true (a b : N) (lim : N) :
  ((lim <? a) || (lim <? b))%N = true <-> (lim < a \/ lim < b)%N.
Proof.
  rewrite orb_true_iff, !N.ltb_lt. reflexivity.
Qed.

(** ** The reference implementation honours the interfaces *)

Lemma firstn_write (data buf : bytes) :
  firstn (length data) (write data buf) = data.
Proof.
  unfold write. rewrite firstn_app, Nat.sub_diag, firstn_all.
  simpl. apply app_nil_r.
Qed.

Lemma Stored_bound_int (n : Z) : is_int (Stored.bound n).
Proof.
  unfold Stored.bound, is_int, INT32_MIN, INT32_MAX, LZ4_MAX_INPUT_SIZE.
  destruct ((n <? 0) || (2113929216 <? n)) eqn:E; [lia |].
  apply orb_false_iff in E. destruct E as [E1 E2].
  apply Z.ltb_ge in E1, E2.
  assert (0 <= n / 255 <= n) by
    (split; [apply Z.div_pos; lia | apply Z.div_le_upper_bound; lia]).
  assert (n / 255 <= 8289919) by (apply Z.div_le_upper_bound; lia).
  lia.
Qed.

Lemma Stored_lz4_compress_int (s d : bytes) (n c : Z) :
  is_int (fst (Stored.lz4_compress s d n c)).
Proof.
  unfold Stored.lz4_compress, is_int, INT32_MIN, INT32_MAX.
  destruct ((0 <=? n) && _ && _ && _) eqn:E; simpl; [| lia].
  rewrite !andb_true_iff, !Z.leb_le in E. unfold INT32_MAX in E. lia.
Qed.

Lemma Stored_lz4_decompress_int (c e : bytes) (w m : Z) :
  is_int (fst (Stored.lz4_decompress c e w m)).
Proof.
  unfold Stored.lz4_decompress, is_int, INT32_MIN, INT32_MAX.
  destruct ((1 <=? w) && _ && _ && _ && _) eqn:E; simpl; [| lia].
  rewrite !andb_true_iff, !Z.leb_le in E. unfold INT32_MAX in E. lia.
Qed.

#[export] Instance Stored_LZ4 : LZ4 := {|
  LZ4_compressBound := Stored.bound;
  LZ4_compress_default := Stored.lz4_compress;
  LZ4_decompress_safe := Stored.lz4_decompress;
  LZ4_compressBound_int := Stored_bound_int;
  LZ4_compress_default_int := Stored_lz4_compress_int;
  LZ4_decompress_safe_int := Stored_lz4_decompress_int
|}.

#[export] Instance Stored_Zlib : Zlib := {|
  compressBound := Stored.deflate_bound;
  compress2 := Stored.deflate_compress;
  uncompress := Stored.deflate_uncompress
|}.

(** A buffer that starts with a stored block starts with the header, and the
    data follows. *)
Lemma stored_prefix (s c : bytes) :
  firstn (S (length s)) c = Stored.header :: s ->
  exists c', c = Stored.header :: c' /\ firstn (length s) c' = s.
Proof.
  destruct c as [| h c']; simpl; intros H; [discriminate |].
  injection H as -> H. exists c'. split; [reflexivity | exact H].
Qed.

Lemma Stored_lz4_compress_success (s d : bytes) (cap w : Z) (d' : bytes) :
  Stored.lz4_compress s d (Z.of_nat (length s)) cap = (w, d') ->
  0 < w ->
  w = Z.of_nat (length s) + 1 /\ w <= INT32_MAX /\
  d' = write (Stored.header :: s) d.
Proof.
  unfold Stored.lz4_compress.
  destruct (_ && _ && _ && _) eqn:E; intros H Hw;
    injection H as <- <-; [| lia].
  rewrite !andb_true_iff, !Z.leb_le in E.
  rewrite Nat2Z.id, firstn_all. repeat split; lia.
Qed.

Lemma Stored_lz4_decompress_block (s c' e : bytes) (m : Z) :
  firstn (length s) c' = s ->
  Z.of_nat (length s) + 1 <= INT32_MAX ->
  Stored.lz4_decompress (Stored.header :: c') e (Z.of_nat (length s) + 1) m =
  if Z.of_nat (length s) <=? m
  then (Z.of_nat (length s), write s e)
  else (-1, e).
Proof.
  intros Hc Hmax. unfold Stored.lz4_decompress.
  assert (Hlen : (length s <= length c')%nat).
  { pose proof (f_equal (@length byte) Hc) as Hl.
    rewrite length_firstn in Hl. lia. }
  replace (Z.of_nat (length s) + 1 - 1) with (Z.of_nat (length s)) by lia.
  replace (1 <=? Z.of_nat (length s) + 1) with true
    by (symmetry; apply Z.leb_le; lia).
  replace (Z.of_nat (length s) + 1 <=? INT32_MAX) with true
    by (symmetry; apply Z.leb_le; lia).
  replace (Z.of_nat (length s) + 1 <=? Z.of_nat (length (Stored.header :: c')))
    with true by (symmetry; apply Z.leb_le; simpl length; lia).
  simpl. rewrite Nat2Z.id, Hc. reflexivity.
Qed.

#[export] Instance Stored_LZ4_contract : LZ4_contract Stored_LZ4.
Proof.
  split; simpl.
  - reflexivity.
  - intros s d cap Hpos [Hcap Hmax] _.
    unfold Stored.bound in Hpos, Hcap. unfold Stored.lz4_compress.
    destruct ((Z.of_nat (length s) <? 0) || _) eqn:E; [lia |].
    assert (0 <= Z.of_nat (length s) / 255) by (apply Z.div_pos; lia).
    replace (_ && _ && _ && _) with true; [simpl; lia |].
    symmetry. rewrite !andb_true_iff, !Z.leb_le. lia.
  - intros s d cap w d' c e m Hc Hw Hpre [Hm _].
    destruct (Stored_lz4_compress_success _ _ _ _ _ Hc Hw) as (-> & Hmax & ->).
    replace (Z.to_nat (Z.of_nat (length s) + 1)) with (S (length s)) in Hpre
      by lia.
    change (S (length s)) with (length (Stored.header :: s)) in Hpre at 2.
    rewrite firstn_write in Hpre.
    destruct (stored_prefix _ _ Hpre) as (c' & -> & Hc').
    rewrite (Stored_lz4_decompress_block _ _ _ _ Hc' Hmax).
    apply Z.leb_le in Hm. rewrite Hm.
    exists (write s e). split; [reflexivity | apply firstn_write].
  - intros s d cap w d' c e m Hc Hw Hpre [_ Hm].
    destruct (Stored_lz4_compress_success _ _ _ _ _ Hc Hw) as (-> & Hmax & ->).
    replace (Z.to_nat (Z.of_nat (length s) + 1)) with (S (length s)) in Hpre
      by lia.
    change (S (length s)) with (length (Stored.header :: s)) in Hpre at 2.
    rewrite firstn_write in Hpre.
    destruct (stored_prefix _ _ Hpre) as (c' & -> & Hc').
    rewrite (Stored_lz4_decompress_block _ _ _ _ Hc' Hmax).
    apply Z.leb_gt in Hm. rewrite Hm. simpl. lia.
Qed.

Lemma Stored_deflate_compress_success
  (s d : bytes) (cap : N) (level : Z) (w : N) (d' : bytes) :
  Stored.deflate_compress d cap s (N.of_nat (length s)) level = (Z_OK, w, d') ->
  w = (N.of_nat (length s) + 1)%N /\ d' = write (Stored.header :: s) d.
Proof.
  unfold Stored.deflate_compress.
  destruct (negb _); [discriminate |].
  destruct (_ && _)%bool; [| discriminate].
  intros H. injection H as <- <-.
  rewrite Nat2N.id, firstn_all. split; reflexivity.
Qed.

Lemma Stored_deflate_uncompress_block (s c' e : bytes) (m : N) :
  firstn (length s) c' = s ->
  (N.of_nat (length s) <= m)%N ->
  Stored.deflate_uncompress e m (Stored.header :: c')
    (N.of_nat (length s) + 1) =
  (Z_OK, N.of_nat (length s), write s e).
Proof.
  intros Hc Hm. unfold Stored.deflate_uncompress.
  assert (Hlen : (length s <= length c')%nat).
  { pose proof (f_equal (@length byte) Hc) as Hl.
    rewrite length_firstn in Hl. lia. }
  replace (N.of_nat (length s) + 1 - 1)%N with (N.of_nat (length s)) by lia.
  replace (1 <=? N.of_nat (length s) + 1)%N with true
    by (symmetry; apply N.leb_le; lia).
  replace (N.of_nat (length s) + 1 <=? N.of_nat (length (Stored.header :: c')))%N
    with true by (symmetry; apply N.leb_le; simpl length; lia).
  apply N.leb_le in Hm. rewrite Hm.
  simpl. rewrite Nat2N.id, Hc. reflexivity.
Qed.

#[export] Instance Stored_Zlib_contract : Zlib_contract Stored_Zlib.
Proof.
  split; simpl.
  - intros s d cap Hcap _.
    unfold Stored.deflate_bound in Hcap. unfold Stored.deflate_compress.
    change (negb _) with false. cbv iota.
    replace (_ && _)%bool with true; [reflexivity |].
    symmetry. rewrite andb_true_iff, !N.leb_le. lia.
  - intros s d cap n level w d'. unfold Stored.deflate_compress.
    destruct (negb _); [discriminate |].
    destruct (_ && _)%bool eqn:E; [| discriminate].
    intros H. injection H as <- _.
    rewrite andb_true_iff, !N.leb_le in E. lia.
  - intros s d cap level w d' c e m Hc Hpre [Hm _].
    destruct (Stored_deflate_compress_success _ _ _ _ _ _ Hc) as (-> & ->).
    replace (N.to_nat (N.of_nat (length s) + 1)) with (S (length s)) in Hpre
      by lia.
    change (S (length s)) with (length (Stored.header :: s)) in Hpre at 2.
    rewrite firstn_write in Hpre.
    destruct (stored_prefix _ _ Hpre) as (c' & -> & Hc').
    rewrite (Stored_deflate_uncompress_block _ _ _ _ Hc' Hm).
    exists (write s e). split; [reflexivity | apply firstn_write].
Qed.

(** ** The shims follow their paths *)

Create HintDb wax discriminated.
#[export] Hint Constructors lz4_compress_path lz4_decompress_path deflate_path
  : wax.

Lemma wax_lz4_compress_path {L : LZ4}
  (src : ptr bytes) (src_len : N) (dst : ptr bytes) (dst_cap : N)
  (out_len : ptr N) :
  lz4_compress_path src src_len dst dst_cap out_len
    (wax_lz4_compress src src_len dst dst_cap out_len).
Proof.
  unfold wax_lz4_compress.
  destruct src as [s |]; [| null_path].
  destruct dst as [d |]; [| null_path].
  destruct out_len as [o |]; [| null_path].
  rewrite size_t_of_INT32_MAX.
  destruct (_ || _) eqn:Elim.
  { apply size_limit_true in Elim. eauto with wax. }
  apply size_limit_false in Elim. destruct Elim as [Hsrc Hcap].
  rewrite !int_of_size_t_small by assumption.
  pose proof (LZ4_compressBound_int (Z.of_N src_len)) as Hint.
  destruct (_ <=? 0) eqn:Ebound.
  { apply Z.leb_le in Ebound. eauto with wax. }
  apply Z.leb_gt in Ebound.
  rewrite size_t_of_int_nonneg by (assumption || lia).
  destruct (_ <? _)%N eqn:Esmall.
  { apply N.ltb_lt in Esmall. eapply LC_small; eauto. lia. }
  apply N.ltb_ge in Esmall.
  pose proof (LZ4_compress_default_int s d (Z.of_N src_len) (Z.of_N dst_cap))
    as Hw.
  destruct (LZ4_compress_default _ _ _ _) as [written d'] eqn:Ecall.
  simpl in Hw. simpl app.
  destruct (written <=? 0) eqn:Ew.
  { apply Z.leb_le in Ew. eapply LC_failed; eauto. lia. }
  apply Z.leb_gt in Ew.
  rewrite size_t_of_int_nonneg by (assumption || lia).
  eapply LC_ok; eauto. lia.
Qed.

Lemma wax_lz4_decompress_path {L : LZ4}
  (src : ptr bytes) (src_len : N) (dst : ptr bytes) (dst_len : N) :
  lz4_decompress_path src src_len dst dst_len
    (wax_lz4_decompress src src_len dst dst_len).
Proof.
  unfold wax_lz4_decompress.
  destruct src as [s |]; [| null_path].
  destruct dst as [d |]; [| null_path].
  rewrite size_t_of_INT32_MAX.
  destruct (_ || _) eqn:Elim.
  { apply size_limit_true in Elim. eauto with wax. }
  apply size_limit_false in Elim. destruct Elim as [Hsrc Hlen].
  rewrite !int_of_size_t_small by assumption.
  pose proof (LZ4_decompress_safe_int s d (Z.of_N src_len) (Z.of_N dst_len))
    as Hw.
  destruct (LZ4_decompress_safe _ _ _ _) as [written d'] eqn:Ecall.
  simpl in Hw.
  destruct (written <? 0) eqn:Ew.
  { apply Z.ltb_lt in Ew. eauto with wax. }
  apply Z.ltb_ge in Ew.
  rewrite size_t_of_int_nonneg by assumption.
  destruct (_ =? _)%N eqn:Eeq; simpl negb; cbv iota.
  - apply N.eqb_eq in Eeq.
    assert (written = Z.of_N dst_len) as -> by lia.
    eauto with wax.
  - apply N.eqb_neq in Eeq. eapply LD_mismatch; eauto. lia.
Qed.

Lemma wax_deflate_compress_path {Zl : Zlib}
  (src : ptr bytes) (src_len : N) (dst : ptr bytes) (inout_dst_len : ptr N) :
  deflate_path
    (fun d cap s n => compress2 d cap s n Z_DEFAULT_COMPRESSION)
    (fun cap n => Call_compress2 cap n Z_DEFAULT_COMPRESSION)
    src src_len dst inout_dst_len
    (wax_deflate_compress src src_len dst inout_dst_len).
Proof.
  unfold wax_deflate_compress, uLong_of_size_t, size_t_of_uLong.
  destruct src as [s |]; [| null_path].
  destruct dst as [d |]; [| null_path].
  destruct inout_dst_len as [cap |]; [| null_path].
  rewrite size_t_of_UINT32_MAX.
  destruct (_ || _) eqn:Elim.
  { apply size_limit_true in Elim. eauto with wax. }
  apply size_limit_false in Elim. destruct Elim as [Hsrc Hcap].
  destruct (compress2 _ _ _ _ _) as [[zrc out_len'] d'] eqn:Ecall.
  destruct (zrc =? Z_OK) eqn:Ez; simpl negb; cbv iota.
  - apply Z.eqb_eq in Ez. subst zrc.
    exact (DF_ok _ (fun cap n => Call_compress2 cap n Z_DEFAULT_COMPRESSION)
             _ _ _ _ s d cap out_len' d' eq_refl eq_refl eq_refl
             Hsrc Hcap Ecall).
  - apply Z.eqb_neq in Ez.
    exact (DF_failed _ (fun cap n => Call_compress2 cap n Z_DEFAULT_COMPRESSION)
             _ _ _ _ s d cap zrc out_len' d' eq_refl eq_refl eq_refl
             Hsrc Hcap Ecall Ez).
Qed.

Lemma wax_deflate_decompress_path {Zl : Zlib}
  (src : ptr bytes) (src_len : N) (dst : ptr bytes) (inout_dst_len : ptr N) :
  deflate_path uncompress Call_uncompress src src_len dst inout_dst_len
    (wax_deflate_decompress src src_len dst inout_dst_len).
Proof.
  unfold wax_deflate_decompress, uLong_of_size_t, size_t_of_uLong.
  destruct src as [s |]; [| null_path].
  destruct dst as [d |]; [| null_path].
  destruct inout_dst_len as [cap |]; [| null_path].
  rewrite size_t_of_UINT32_MAX.
  destruct (_ || _) eqn:Elim.
  { apply size_limit_true in Elim. eauto with wax. }
  apply size_limit_false in Elim. destruct Elim as [Hsrc Hcap].
  destruct (uncompress _ _ _ _) as [[zrc out_len'] d'] eqn:Ecall.
  destruct (zrc =? Z_OK) eqn:Ez; simpl negb; cbv iota.
  - apply Z.eqb_eq in Ez. subst zrc. eapply DF_ok; eauto.
  - apply Z.eqb_neq in Ez. eapply DF_failed; eauto.
Qed.

(** ** Calls that reach the transform *)

(** [wax_lz4_decompress] on non-null buffers and sizes that fit an [int]:
    the result is decided by what [LZ4_decompress_safe] reports. *)
Lemma wax_lz4_decompress_run {L : LZ4}
  (c e : bytes) (w m written : Z) (e' : bytes) :
  0 <= w <= INT32_MAX -> 0 <= m <= INT32_MAX ->
  LZ4_decompress_safe c e w m = (written, e') ->
  wax_lz4_decompress (Some c) (Z.to_N w) (Some e) (Z.to_N m) =
  {| ret := if written <? 0 then -3 else if written =? m then 0 else -4;
     dst_mem := Some e'; len_mem := NULL;
     calls := [Call_LZ4_decompress_safe w m written] |}.
Proof.
  unfold INT32_MAX. intros Hw Hm Hcall.
  on_path (wax_lz4_decompress_path (Some c) (Z.to_N w) (Some e) (Z.to_N m));
    [no_null | lia | ..];
    rewrite !Z2N.id in * by lia; same_call; decide_tests.
Qed.

(** [wax_lz4_compress] past its four checks, with a transform that reports a
    positive count. *)
Lemma wax_lz4_compress_run {L : LZ4}
  (s d : bytes) (o : N) (n cap written : Z) (d' : bytes) :
  0 <= n <= INT32_MAX -> 0 <= cap <= INT32_MAX ->
  0 < LZ4_compressBound n <= cap ->
  LZ4_compress_default s d n cap = (written, d') ->
  0 < written ->
  wax_lz4_compress (Some s) (Z.to_N n) (Some d) (Z.to_N cap) (Some o) =
  {| ret := 0; dst_mem := Some d'; len_mem := Some (Z.to_N written);
     calls := [Call_LZ4_compressBound n (LZ4_compressBound n);
               Call_LZ4_compress_default n cap written] |}.
Proof.
  unfold INT32_MAX. intros Hn Hcap Hbound Hcall Hw.
  on_path (wax_lz4_compress_path
             (Some s) (Z.to_N n) (Some d) (Z.to_N cap) (Some o));
    [no_null | lia | ..];
    rewrite !Z2N.id in * by lia; try lia; same_call;
    [lia | reflexivity].
Qed.

(** The DEFLATE shims on non-null pointers and sizes within [UINT32_MAX]. *)
Lemma wax_deflate_compress_run {Zl : Zlib}
  (s d : bytes) (n cap : N) (zrc : Z) (w : N) (d' : bytes) :
  (n <= 4294967295)%N -> (cap <= 4294967295)%N ->
  compress2 d cap s n Z_DEFAULT_COMPRESSION = (zrc, w, d') ->
  wax_deflate_compress (Some s) n (Some d) (Some cap) =
  {| ret := if zrc =? Z_OK then 0 else -3;
     dst_mem := Some d';
     len_mem := if zrc =? Z_OK then Some w else Some cap;
     calls := [Call_compress2 cap n Z_DEFAULT_COMPRESSION zrc w] |}.
Proof.
  intros Hn Hcap Hcall.
  on_path (wax_deflate_compress_path (Some s) n (Some d) (Some cap));
    [no_null | lia | ..]; same_call; decide_tests.
Qed.

Lemma wax_deflate_decompress_run {Zl : Zlib}
  (c e : bytes) (w m : N) (zrc : Z) (n : N) (e' : bytes) :
  (w <= 4294967295)%N -> (m <= 4294967295)%N ->
  uncompress e m c w = (zrc, n, e') ->
  wax_deflate_decompress (Some c) w (Some e) (Some m) =
  {| ret := if zrc =? Z_OK then 0 else -3;
     dst_mem := Some e';
     len_mem := if zrc =? Z_OK then Some n else Some m;
     calls := [Call_uncompress m w zrc n] |}.
Proof.
  intros Hw Hm Hcall.
  on_path (wax_deflate_decompress_path (Some c) w (Some e) (Some m));
    [no_null | lia | ..]; same_call; decide_tests.
Qed.

(** ** Round trips through the shims, for libraries that honour their
    contract *)

Section RoundTrip.

Context {L : LZ4} {Zl : Zlib}.
Context {CL : LZ4_contract L} {CZ : Zlib_contract Zl}.

Lemma LZ4_compressBound_pos (n : Z) :
  0 <= n <= LZ4_MAX_INPUT_SIZE -> n + 16 <= LZ4_compressBound n.
Proof.
  intros [Hlo Hhi]. rewrite LZ4_compressBound_spec.
  replace ((n <? 0) || (LZ4_MAX_INPUT_SIZE <? n)) with false.
  - assert (0 <= n / 255) by (apply Z.div_pos; lia). lia.
  - symmetry. apply orb_false_iff. split; apply Z.ltb_ge; lia.
Qed.

Lemma lz4_compress_succeeds (b d : bytes) (cap o : N) :
  Z.of_nat (length b) <= LZ4_MAX_INPUT_SIZE ->
  LZ4_compressBound (Z.of_nat (length b)) <= Z.of_N cap <= INT32_MAX ->
  (cap <= N.of_nat (length d))%N ->
  exists w d',
    LZ4_compress_default b d (Z.of_nat (length b)) (Z.of_N cap) = (w, d') /\
    0 < w <= Z.of_N cap /\
    wax_lz4_compress (Some b) (N.of_nat (length b)) (Some d) cap (Some o) =
    {| ret := 0; dst_mem := Some d'; len_mem := Some (Z.to_N w);
       calls := [Call_LZ4_compressBound (Z.of_nat (length b))
                   (LZ4_compressBound (Z.of_nat (length b)));
                 Call_LZ4_compress_default (Z.of_nat (length b))
                   (Z.of_N cap) w] |}.
Proof.
  intros Hn Hcap Hd.
  pose proof (LZ4_compressBound_pos (Z.of_nat (length b))) as Hpos.
  assert (Hb : 0 < LZ4_compressBound (Z.of_nat (length b))) by lia.
  pose proof (LZ4_compress_default_fits b d (Z.of_N cap) Hb Hcap) as Hfit.
  destruct (LZ4_compress_default b d _ _) as [w d'] eqn:Ecall.
  simpl in Hfit. exists w, d'.
  assert (Hw : 0 < w <= Z.of_N cap) by (apply Hfit; lia).
  split; [reflexivity | split; [exact Hw |]].
  replace (N.of_nat (length b)) with (Z.to_N (Z.of_nat (length b))) by lia.
  rewrite <- (N2Z.id cap) at 1.
  apply wax_lz4_compress_run; unfold INT32_MAX in *; try lia; assumption.
Qed.

Lemma lz4_decompress_inverts
  (b d0 : bytes) (cap w : Z) (d' c e : bytes) :
  LZ4_compress_default b d0 (Z.of_nat (length b)) cap = (w, d') ->
  0 < w ->
  Z.of_nat (length b) <= INT32_MAX ->
  firstn (Z.to_nat w) c = firstn (Z.to_nat w) d' ->
  (length b <= length e)%nat ->
  exists e',
    wax_lz4_decompress (Some c) (Z.to_N w) (Some e) (N.of_nat (length b)) =
    {| ret := 0; dst_mem := Some e'; len_mem := NULL;
       calls := [Call_LZ4_decompress_safe w (Z.of_nat (length b))
                   (Z.of_nat (length b))] |} /\
    firstn (length b) e' = b.
Proof.
  intros Hcall Hw Hn Hpre He.
  destruct (LZ4_decompress_safe_inverts b d0 cap w d' c e
              (Z.of_nat (length b)) Hcall Hw Hpre) as (e' & Hdec & Hout);
    [lia |].
  exists e'. split; [| exact Hout].
  pose proof (LZ4_compress_default_int b d0 (Z.of_nat (length b)) cap) as Hint.
  rewrite Hcall in Hint. destruct Hint as [_ Hmax]. simpl in Hmax.
  replace (N.of_nat (length b)) with (Z.to_N (Z.of_nat (length b))) by lia.
  rewrite (wax_lz4_decompress_run c e w (Z.of_nat (length b))
             (Z.of_nat (length b)) e'); try lia; [| exact Hdec].
  replace (Z.of_nat (length b) <? 0) with false
    by (symmetry; apply Z.ltb_ge; lia).
  rewrite Z.eqb_refl. reflexivity.
Qed.

Lemma deflate_compress_succeeds (b d : bytes) (cap : N) :
  (compressBound (N.of_nat (length b)) <= cap <= 4294967295)%N ->
  (N.of_nat (length b) <= 4294967295)%N ->
  (cap <= N.of_nat (length d))%N ->
  exists w d',
    compress2 d cap b (N.of_nat (length b)) Z_DEFAULT_COMPRESSION
      = (Z_OK, w, d') /\
    (w <= cap)%N /\
    wax_deflate_compress (Some b) (N.of_nat (length b)) (Some d) (Some cap) =
    {| ret := 0; dst_mem := Some d'; len_mem := Some w;
       calls := [Call_compress2 cap (N.of_nat (length b))
                   Z_DEFAULT_COMPRESSION Z_OK w] |}.
Proof.
  intros [Hbound Hcap] Hn Hd.
  pose proof (compress2_fits b d cap Hbound Hd) as Hok.
  destruct (compress2 d cap b _ _) as [[zrc w] d'] eqn:Ecall.
  simpl in Hok. subst zrc. exists w, d'.
  split; [reflexivity | split].
  - exact (compress2_within _ _ _ _ _ _ _ Ecall).
  - rewrite (wax_deflate_compress_run _ _ _ _ _ _ _ Hn Hcap Ecall).
    reflexivity.
Qed.

Lemma deflate_decompress_inverts
  (b d0 : bytes) (cap : N) (level : Z) (w : N) (d' c e : bytes) (m : N) :
  compress2 d0 cap b (N.of_nat (length b)) level = (Z_OK, w, d') ->
  (w <= 4294967295)%N ->
  firstn (N.to_nat w) c = firstn (N.to_nat w) d' ->
  (N.of_nat (length b) <= m <= N.of_nat (length e))%N ->
  (m <= 4294967295)%N ->
  exists e',
    wax_deflate_decompress (Some c) w (Some e) (Some m) =
    {| ret := 0; dst_mem := Some e'; len_mem := Some (N.of_nat (length b));
       calls := [Call_uncompress m w Z_OK (N.of_nat (length b))] |} /\
    firstn (length b) e' = b.
Proof.
  intros Hcall Hw Hpre Hm Hmax.
  destruct (uncompress_inverts b d0 cap level w d' c e m Hcall Hpre Hm)
    as (e' & Hdec & Hout).
  exists e'. split; [| exact Hout].
  rewrite (wax_deflate_decompress_run _ _ _ _ _ _ _ Hw Hmax Hdec).
  reflexivity.
Qed.

End RoundTrip.

Lemma fast_round_trip_holds {L : LZ4} {CL : LZ4_contract L}
  (b d e : bytes) (cap o : N) :
  (length b <= length e)%nat ->
  (cap <= N.of_nat (length d))%N ->
  Z.of_nat (length b) <= LZ4_MAX_INPUT_SIZE ->
  LZ4_compressBound (Z.of_nat (length b)) <= Z.of_N cap <= INT32_MAX ->
  fast_round_trip b d e cap o.
Proof.
  intros He Hd Hn Hcap.
  destruct (lz4_compress_succeeds b d cap o Hn Hcap Hd)
    as (w & d' & Hcall & Hw & Hrun).
  unfold fast_round_trip. rewrite Hrun. cbn [ret len_mem dst_mem].
  split; [reflexivity |].
  exists (Z.to_N w), d'. split; [reflexivity | split; [reflexivity |]].
  intros c Hpre. rewrite Z_N_nat in Hpre.
  assert (Hmax : Z.of_nat (length b) <= INT32_MAX)
    by (unfold LZ4_MAX_INPUT_SIZE, INT32_MAX in *; lia).
  destruct (lz4_decompress_inverts b d (Z.of_N cap) w d' c e
              Hcall (proj1 Hw) Hmax Hpre He) as (e' & Hdec & Hout).
  cbv zeta. rewrite Hdec. cbn [ret dst_mem].
  split; [reflexivity | exists e'; split; [reflexivity | exact Hout]].
Qed.

Lemma deflate_round_trip_holds {Zl : Zlib} {CZ : Zlib_contract Zl}
  (b d e : bytes) (cap : N) :
  (cap <= N.of_nat (length d))%N ->
  Z.of_nat (length b) <= UINT32_MAX ->
  (compressBound (N.of_nat (length b)) <= cap)%N ->
  Z.of_N cap <= UINT32_MAX ->
  deflate_round_trip b d e cap.
Proof.
  unfold UINT32_MAX. intros Hd Hn Hbound Hcap.
  destruct (deflate_compress_succeeds b d cap)
    as (w & d' & Hcall & Hw & Hrun); try lia.
  unfold deflate_round_trip. rewrite Hrun. cbn [ret len_mem dst_mem].
  split; [reflexivity |].
  exists w, d'. split; [reflexivity | split; [reflexivity |]].
  intros c m Hpre Hm Hmax. unfold UINT32_MAX in Hmax.
  destruct (deflate_decompress_inverts b d cap Z_DEFAULT_COMPRESSION
              w d' c e m Hcall) as (e' & Hdec & Hout);
    try assumption; try lia.
  cbv zeta. rewrite Hdec. cbn [ret len_mem dst_mem].
  split; [reflexivity | split; [reflexivity |]].
  exists e'. split; [reflexivity | exact Hout].
Qed.

(** ** The claims *)

(** C1.  Round-trip integrity, for libraries that honour their contract.  For
    every byte sequence [b] of at most [LZ4_MAX_INPUT_SIZE] bytes (fast codec)
    resp. [UINT32_MAX] bytes (DEFLATE), with output buffers of the right size
    (a capacity of at least the codec's bound that the allocation covers for
    compression, room for [b] for decompression): compression succeeds, and
    decompressing its output succeeds and yields [b], the expected length of
    the fast codec being the length of [b]. *)
Theorem round_trip {L : LZ4} {Zl : Zlib}
  {CL : LZ4_contract L} {CZ : Zlib_contract Zl}
  (b d e : bytes) (cap o : N) :
  (length b <= length e)%nat ->
  (cap <= N.of_nat (length d))%N ->
  (Z.of_nat (length b) <= LZ4_MAX_INPUT_SIZE ->
   LZ4_compressBound (Z.of_nat (length b)) <= Z.of_N cap <= INT32_MAX ->
   fast_round_trip b d e cap o) /\
  (Z.of_nat (length b) <= UINT32_MAX ->
   (compressBound (N.of_nat (length b)) <= cap)%N ->
   Z.of_N cap <= UINT32_MAX ->
   deflate_round_trip b d e cap).
Proof.
  intros He Hd. split.
  - intros Hn Hcap. apply fast_round_trip_holds; assumption.
  - intros Hn Hbound Hcap. apply deflate_round_trip_holds; assumption.
Qed.

(** Three bytes through both codecs of the reference implementation, with a
    32-byte output buffer. *)
Lemma round_trip_witness :
  fast_round_trip [x01; x02; x03] (repeat x00 32) (repeat x00 3) 32 0 /\
  deflate_round_trip [x01; x02; x03] (repeat x00 32) (repeat x00 3) 32.
Proof.
  pose proof (round_trip [x01; x02; x03] (repeat x00 32) (repeat x00 3) 32 0)
    as H.
  destruct H as [Hfast Hdeflate]; [by_evaluation | by_evaluation |].
  split; [apply Hfast | apply Hdeflate]; by_evaluation.
Defined.

(** C2, as the code has it.  Each shim returns [InvalidArgument] exactly when
    one of its pointers ([src], [dst], or the length pointer where there is
    one) is [NULL], whatever the lengths are: the null check comes first and
    does not look at [src_len].  In particular [wax_lz4_compress] rejects a
    null [src] also when [src_len] is 0. *)
Theorem invalid_argument_iff_null {L : LZ4} {Zl : Zlib}
  (src : ptr bytes) (src_len : N) (dst : ptr bytes) (dst_cap : N)
  (len : ptr N) :
  (failure FastCompress
     (ret (wax_lz4_compress src src_len dst dst_cap len))
     = Some InvalidArgument
   <-> src = NULL \/ dst = NULL \/ len = NULL) /\
  (failure FastDecompress
     (ret (wax_lz4_decompress src src_len dst dst_cap))
     = Some InvalidArgument
   <-> src = NULL \/ dst = NULL) /\
  (failure DeflateCompress
     (ret (wax_deflate_compress src src_len dst len))
     = Some InvalidArgument
   <-> src = NULL \/ dst = NULL \/ len = NULL) /\
  (failure DeflateDecompress
     (ret (wax_deflate_decompress src src_len dst len))
     = Some InvalidArgument
   <-> src = NULL \/ dst = NULL \/ len = NULL).
Proof.
  split; [| split; [| split]].
  - on_path (wax_lz4_compress_path src src_len dst dst_cap len); null_iff.
  - on_path (wax_lz4_decompress_path src src_len dst dst_cap); null_iff.
  - on_path (wax_deflate_compress_path src src_len dst len); null_iff.
  - on_path (wax_deflate_decompress_path src src_len dst len); null_iff.
Qed.

(** With nothing to compress, a 16-byte output buffer and a valid length
    pointer, the call succeeds when [src] points somewhere and is refused as
    [InvalidArgument] when [src] is [NULL]. *)
Lemma null_input_rejected_at_zero_length :
  ret (wax_lz4_compress (Some []) 0 (Some (repeat x00 16)) 16 (Some 0%N)) = 0 /\
  ret (wax_lz4_compress NULL 0 (Some (repeat x00 16)) 16 (Some 0%N)) = -1 /\
  failure FastCompress
    (ret (wax_lz4_compress NULL 0 (Some (repeat x00 16)) 16 (Some 0%N)))
    = Some InvalidArgument.
Proof.
  split; [| split]; vm_compute; reflexivity.
Qed.

(** C3, as the code has it.  For a call whose pointers are all non-null: the
    call fails with [SizeLimitExceeded] exactly when the input length or the
    output capacity is above [INT32_MAX] (fast codec) or above [UINT32_MAX]
    (DEFLATE), and then no library function has been called; lengths within
    the range pass the check.  (With a null pointer the call has already
    failed with [InvalidArgument]: the null check is the first one.) *)
Theorem size_limit_enforced {L : LZ4} {Zl : Zlib}
  (s d : bytes) (src_len cap o : N) :
  let fc := wax_lz4_compress (Some s) src_len (Some d) cap (Some o) in
  let fd := wax_lz4_decompress (Some s) src_len (Some d) cap in
  let dc := wax_deflate_compress (Some s) src_len (Some d) (Some cap) in
  let dd := wax_deflate_decompress (Some s) src_len (Some d) (Some cap) in
  ((exceeds INT32_MAX src_len cap <->
    failure FastCompress (ret fc) = Some SizeLimitExceeded) /\
   (exceeds INT32_MAX src_len cap -> calls fc = [])) /\
  ((exceeds INT32_MAX src_len cap <->
    failure FastDecompress (ret fd) = Some SizeLimitExceeded) /\
   (exceeds INT32_MAX src_len cap -> calls fd = [])) /\
  ((exceeds UINT32_MAX src_len cap <->
    failure DeflateCompress (ret dc) = Some SizeLimitExceeded) /\
   (exceeds UINT32_MAX src_len cap -> calls dc = [])) /\
  ((exceeds UINT32_MAX src_len cap <->
    failure DeflateDecompress (ret dd) = Some SizeLimitExceeded) /\
   (exceeds UINT32_MAX src_len cap -> calls dd = [])).
Proof.
  intros fc fd dc dd. subst fc fd dc dd.
  split; [| split; [| split]].
  - on_path (wax_lz4_compress_path (Some s) src_len (Some d) cap (Some o));
      size_limit.
  - on_path (wax_lz4_decompress_path (Some s) src_len (Some d) cap);
      size_limit.
  - on_path (wax_deflate_compress_path (Some s) src_len (Some d) (Some cap));
      size_limit.
  - on_path (wax_deflate_decompress_path (Some s) src_len (Some d) (Some cap));
      size_limit.
Qed.

(** One byte more than each codec can address, in the input length and in the
    capacity: all four operations refuse before any library call. *)
Lemma size_limit_enforced_witness :
  failure FastCompress
    (ret (wax_lz4_compress (Some [x01]) 2147483648 (Some [x00]) 1 (Some 0%N)))
    = Some SizeLimitExceeded /\
  calls (wax_lz4_decompress (Some [x01]) 1 (Some [x00]) 2147483648) = [] /\
  failure DeflateCompress
    (ret (wax_deflate_compress (Some [x01]) 4294967296 (Some [x00])
            (Some 1%N)))
    = Some SizeLimitExceeded /\
  calls (wax_deflate_decompress (Some [x01]) 1 (Some [x00])
           (Some 4294967296%N)) = [].
Proof.
  split; [| split; [| split]].
  - apply (size_limit_enforced [x01] [x00] 2147483648 1 0).
    left. reflexivity.
  - apply (size_limit_enforced [x01] [x00] 1 2147483648 0).
    right. reflexivity.
  - apply (size_limit_enforced [x01] [x00] 4294967296 1 0).
    left. reflexivity.
  - apply (size_limit_enforced [x01] [x00] 1 4294967296 0).
    right. reflexivity.
Defined.

(** The same oversized length with a null [src]: the answer is
    [InvalidArgument], not [SizeLimitExceeded]. *)
Lemma null_check_precedes_size_limit :
  ret (wax_lz4_compress NULL 2147483648 (Some [x00]) 1 (Some 0%N)) = -1 /\
  failure FastCompress
    (ret (wax_lz4_compress NULL 2147483648 (Some [x00]) 1 (Some 0%N)))
    = Some InvalidArgument /\
  failure FastCompress
    (ret (wax_lz4_compress NULL 2147483648 (Some [x00]) 1 (Some 0%N)))
    <> Some SizeLimitExceeded.
Proof.
  split; [| split]; vm_compute; [reflexivity | reflexivity | discriminate].
Qed.

(** C4.  Capacity rejection of [wax_lz4_compress]: when the call has computed
    the worst-case bound (it has called [LZ4_compressBound], on the input
    length) and the declared output capacity is strictly below that bound, it
    fails with [OutputTooSmall]; the bound computation is the only library
    call made, so the transform has not run, and both the output buffer and
    the length cell are as the caller left them.  A capacity one byte below
    the bound is one such case.  The bound is computed whenever the pointers
    are non-null and the input length is within [INT32_MAX]. *)
Theorem capacity_rejection {L : LZ4}
  (src : ptr bytes) (src_len : N) (dst : ptr bytes) (dst_cap : N)
  (out_len : ptr N) :
  let r := wax_lz4_compress src src_len dst dst_cap out_len in
  (forall n bound,
     In (Call_LZ4_compressBound n bound) (calls r) ->
     Z.of_N dst_cap < bound ->
     (n = Z.of_N src_len /\ bound = LZ4_compressBound n) /\
     failure FastCompress (ret r) = Some OutputTooSmall /\
     calls r = [Call_LZ4_compressBound n bound] /\
     dst_mem r = dst /\
     len_mem r = out_len) /\
  (src <> NULL -> dst <> NULL -> out_len <> NULL ->
   Z.of_N src_len <= INT32_MAX ->
   Z.of_N dst_cap < LZ4_compressBound (Z.of_N src_len) ->
   In (Call_LZ4_compressBound (Z.of_N src_len)
         (LZ4_compressBound (Z.of_N src_len))) (calls r)).
Proof.
  intros r. subst r. split.
  - intros n bound.
    on_path (wax_lz4_compress_path src src_len dst dst_cap out_len);
      intros Hin Hlt; simpl in Hin.
    + contradiction.
    + contradiction.
    + destruct Hin as [E | []]. injection E as <- <-. lia.
    + destruct Hin as [E | []]. injection E as <- <-.
      repeat split; reflexivity.
    + destruct Hin as [E | [E | []]]; [| discriminate E].
      injection E as <- <-. lia.
    + destruct Hin as [E | [E | []]]; [| discriminate E].
      injection E as <- <-. lia.
  - pose proof (LZ4_compressBound_int (Z.of_N src_len)) as [_ Hint].
    unfold INT32_MAX in *.
    on_path (wax_lz4_compress_path src src_len dst dst_cap out_len);
      intros Hsrc Hdst Hout Hlen Hlt;
      try solve [left; reflexivity | lia].
    unfold NULL in *. intuition congruence.
Qed.

(** Two bytes of input have the bound 18; a capacity of 17 is one byte short. *)
Lemma capacity_rejection_witness :
  let r :=
    wax_lz4_compress (Some [x01; x02]) 2 (Some (repeat x00 17)) 17
      (Some 0%N) in
  failure FastCompress (ret r) = Some OutputTooSmall /\
  calls r = [Call_LZ4_compressBound 2 18] /\
  dst_mem r = Some (repeat x00 17) /\
  len_mem r = Some 0%N.
Proof.
  refine (proj2 (proj1 (capacity_rejection
                          (Some [x01; x02]) 2 (Some (repeat x00 17)) 17
                          (Some 0%N)) 2 18 _ _)).
  - refine (proj2 (capacity_rejection
                     (Some [x01; x02]) 2 (Some (repeat x00 17)) 17
                     (Some 0%N)) _ _ _ _ _);
      by_evaluation.
  - by_evaluation.
Defined.

(** C5.  Error taxonomy of [wax_lz4_decompress].  When [LZ4_decompress_safe]
    has been called and reported [w]: a negative [w] gives
    [DecompressionFailed], a non-negative [w] other than [dst_len] gives
    [LengthMismatch], and [w = dst_len] gives success; the call succeeds only
    when the transform reported [dst_len].  With a library that honours its
    contract there is no silent truncation: for the compressed form of [b],
    an expected length one less than [|b|] yields [LengthMismatch] or
    [DecompressionFailed], never success. *)
Theorem fast_decompress_taxonomy {L : LZ4} {CL : LZ4_contract L} :
  (forall src src_len dst dst_len n m w,
     let r := wax_lz4_decompress src src_len dst dst_len in
     In (Call_LZ4_decompress_safe n m w) (calls r) ->
     (w < 0 -> failure FastDecompress (ret r) = Some DecompressionFailed) /\
     (0 <= w -> w <> Z.of_N dst_len ->
      failure FastDecompress (ret r) = Some LengthMismatch) /\
     (w = Z.of_N dst_len -> ret r = 0)) /\
  (forall src src_len dst dst_len,
     let r := wax_lz4_decompress src src_len dst dst_len in
     ret r = 0 ->
     In (Call_LZ4_decompress_safe
           (Z.of_N src_len) (Z.of_N dst_len) (Z.of_N dst_len)) (calls r)) /\
  (forall (b d0 : bytes) (cap w : Z) (d' c e : bytes),
     LZ4_compress_default b d0 (Z.of_nat (length b)) cap = (w, d') ->
     0 < w ->
     (1 <= length b)%nat ->
     Z.of_nat (length b) <= INT32_MAX ->
     firstn (Z.to_nat w) c = firstn (Z.to_nat w) d' ->
     let r :=
       wax_lz4_decompress (Some c) (Z.to_N w) (Some e)
         (N.of_nat (length b) - 1) in
     ret r <> 0 /\
     (failure FastDecompress (ret r) = Some LengthMismatch \/
      failure FastDecompress (ret r) = Some DecompressionFailed)).
Proof.
  split; [| split].
  - intros src src_len dst dst_len n m w r. subst r.
    on_path (wax_lz4_decompress_path src src_len dst dst_len);
      intros Hin; simpl in Hin; try contradiction;
      destruct Hin as [E | []]; injection E as <- <- <-;
      (split; [| split]); intros; first [reflexivity | lia].
  - intros src src_len dst dst_len r. subst r.
    on_path (wax_lz4_decompress_path src src_len dst dst_len);
      intros Hret; try discriminate Hret.
    left. reflexivity.
  - intros b d0 cap w d' c e Hcall Hw Hlen Hmax Hpre r. subst r.
    pose proof (LZ4_compress_default_int b d0 (Z.of_nat (length b)) cap)
      as Hint.
    rewrite Hcall in Hint. destruct Hint as [_ Hwmax]. simpl in Hwmax.
    pose proof (LZ4_decompress_safe_overflow b d0 cap w d' c e
                  (Z.of_nat (length b) - 1) Hcall Hw Hpre) as Hneg.
    destruct (LZ4_decompress_safe c e w (Z.of_nat (length b) - 1))
      as [written e'] eqn:Hdec.
    simpl in Hneg.
    replace (N.of_nat (length b) - 1)%N
      with (Z.to_N (Z.of_nat (length b) - 1)) by lia.
    rewrite (wax_lz4_decompress_run c e w (Z.of_nat (length b) - 1)
               written e'); try lia; [| exact Hdec].
    cbn [ret].
    replace (written <? 0) with true by (symmetry; apply Z.ltb_lt; lia).
    split; [discriminate | right; reflexivity].
Qed.

(** The reference codec stores [1; 2; 3] as four bytes; asked for two bytes
    instead of three, the shim refuses. *)
Lemma fast_decompress_taxonomy_witness :
  let r :=
    wax_lz4_decompress (Some [x00; x01; x02; x03]) 4 (Some (repeat x00 2)) 2 in
  ret r <> 0 /\
  (failure FastDecompress (ret r) = Some LengthMismatch \/
   failure FastDecompress (ret r) = Some DecompressionFailed).
Proof.
  refine (proj2 (proj2 fast_decompress_taxonomy)
            [x01; x02; x03] (repeat x00 19) 19 4
            (Stored.header :: [x01; x02; x03] ++ repeat x00 15)
            [x00; x01; x02; x03] (repeat x00 2) _ _ _ _ _);
    by_evaluation.
Defined.

(** C6.  Outcome of the transform in [wax_lz4_compress]: once the checks have
    passed (non-null pointers, both sizes within [INT32_MAX], a positive bound
    that the capacity covers), the call fails with [CompressionFailed] when
    [LZ4_compress_default] reports zero or a negative count, and otherwise
    returns 0 and stores exactly the reported count through [out_len]. *)
Theorem fast_compress_outcome {L : LZ4}
  (s d : bytes) (src_len dst_cap o : N) :
  Z.of_N src_len <= INT32_MAX ->
  Z.of_N dst_cap <= INT32_MAX ->
  0 < LZ4_compressBound (Z.of_N src_len) <= Z.of_N dst_cap ->
  let r := wax_lz4_compress (Some s) src_len (Some d) dst_cap (Some o) in
  let written :=
    fst (LZ4_compress_default s d (Z.of_N src_len) (Z.of_N dst_cap)) in
  (written <= 0 -> failure FastCompress (ret r) = Some CompressionFailed) /\
  (0 < written -> ret r = 0 /\ len_mem r = Some (Z.to_N written)).
Proof.
  intros Hsrc Hcap Hbound r written. subst r written.
  unfold INT32_MAX in Hsrc, Hcap.
  on_path (wax_lz4_compress_path (Some s) src_len (Some d) dst_cap (Some o)).
  - no_null.
  - lia.
  - lia.
  - lia.
  - match goal with E : LZ4_compress_default _ _ _ _ = _ |- _ => rewrite E end.
    simpl fst. split; [intros _; reflexivity | lia].
  - match goal with E : LZ4_compress_default _ _ _ _ = _ |- _ => rewrite E end.
    simpl fst. split; [lia | intros _; split; reflexivity].
Qed.

(** The reference codec stores two bytes of input in three bytes: the call
    succeeds and reports 3. *)
Lemma fast_compress_outcome_witness :
  let r :=
    wax_lz4_compress (Some [x01; x02]) 2 (Some (repeat x00 18)) 18
      (Some 0%N) in
  ret r = 0 /\ len_mem r = Some 3%N.
Proof.
  refine (proj2 (fast_compress_outcome
                   [x01; x02] (repeat x00 18) 2 18 0 _ _ _) _);
    by_evaluation.
Defined.

(** C7.  In/out contract of [wax_deflate_compress].  Whenever [compress2] is
    called, its [*destLen] is the value the caller put behind
    [inout_dst_len], its [sourceLen] is [src_len] and its level is
    [Z_DEFAULT_COMPRESSION]; the shim has no level parameter.  On success the
    length cell holds the length [compress2] left in [*destLen].  With a
    library that honours its contract that length is the number of valid
    bytes of the output: it does not exceed the declared capacity, and
    decompressing exactly that many bytes gives the input back. *)
Theorem deflate_compress_in_out {Zl : Zlib} {CZ : Zlib_contract Zl} :
  (forall src src_len dst inout_dst_len cap n level zrc w,
     In (Call_compress2 cap n level zrc w)
        (calls (wax_deflate_compress src src_len dst inout_dst_len)) ->
     inout_dst_len = Some cap /\ n = src_len /\
     level = Z_DEFAULT_COMPRESSION) /\
  (forall src src_len dst inout_dst_len,
     let r := wax_deflate_compress src src_len dst inout_dst_len in
     ret r = 0 ->
     exists cap w,
       inout_dst_len = Some cap /\
       calls r = [Call_compress2 cap src_len Z_DEFAULT_COMPRESSION Z_OK w] /\
       len_mem r = Some w) /\
  (forall (b d : bytes) (cap : N),
     let r :=
       wax_deflate_compress (Some b) (N.of_nat (length b)) (Some d)
         (Some cap) in
     ret r = 0 ->
     exists w d',
       len_mem r = Some w /\ dst_mem r = Some d' /\ (w <= cap)%N /\
       forall (c e : bytes) (m : N),
         firstn (N.to_nat w) c = firstn (N.to_nat w) d' ->
         (N.of_nat (length b) <= m <= N.of_nat (length e))%N ->
         Z.of_N m <= UINT32_MAX ->
         let r' := wax_deflate_decompress (Some c) w (Some e) (Some m) in
         ret r' = 0 /\ len_mem r' = Some (N.of_nat (length b)) /\
         exists e', dst_mem r' = Some e' /\ firstn (length b) e' = b).
Proof.
  split; [| split].
  - intros src src_len dst inout_dst_len cap n level zrc w.
    on_path (wax_deflate_compress_path src src_len dst inout_dst_len);
      intros Hin; simpl in Hin; try contradiction;
      destruct Hin as [E | []]; injection E as <- <- <- <- <-;
      repeat split; reflexivity.
  - intros src src_len dst inout_dst_len r. subst r.
    on_path (wax_deflate_compress_path src src_len dst inout_dst_len);
      intros Hret; try discriminate Hret.
    eexists _, _. repeat split; reflexivity.
  - intros b d cap r. subst r.
    on_path (wax_deflate_compress_path
               (Some b) (N.of_nat (length b)) (Some d) (Some cap));
      intros Hret; try discriminate Hret.
    match goal with
    | E : compress2 _ _ _ _ _ = (Z_OK, ?w, ?d') |- _ =>
      pose proof (compress2_within _ _ _ _ _ _ _ E) as Hw;
      exists w, d'; split; [reflexivity | split; [reflexivity |]];
      split; [exact Hw |];
      intros c e m Hpre Hm Hmax; unfold UINT32_MAX in Hmax;
      destruct (deflate_decompress_inverts _ _ _ _ _ _ c e m E)
        as (e' & Hdec & Hout); try assumption; try lia
    end.
    cbv zeta. rewrite Hdec. cbn [ret len_mem dst_mem].
    split; [reflexivity | split; [reflexivity |]].
    exists e'. split; [reflexivity | exact Hout].
Qed.

(** On the reference codec: two bytes compressed into a 16-byte buffer with
    the capacity cell at 16; the cell comes back as 3, and the first three
    bytes of the output decompress to the input. *)
Lemma deflate_compress_in_out_witness :
  let r :=
    wax_deflate_compress (Some [x01; x02]) 2 (Some (repeat x00 16))
      (Some 16%N) in
  exists cap w,
    Some 16%N = Some cap /\
    calls r = [Call_compress2 cap 2 Z_DEFAULT_COMPRESSION Z_OK w] /\
    len_mem r = Some w.
Proof.
  refine (proj1 (proj2 deflate_compress_in_out)
            (Some [x01; x02]) 2%N (Some (repeat x00 16)) (Some 16%N) _).
  by_evaluation.
Defined.

(** C8.  Error collapse of the DEFLATE shims.  Whatever status other than
    [Z_OK] the library reports ([Z_BUF_ERROR], [Z_STREAM_ERROR],
    [Z_MEM_ERROR], [Z_DATA_ERROR], ...), [wax_deflate_compress] answers
    [CompressionFailed] and [wax_deflate_decompress] answers
    [DecompressionFailed]: the status does not show in the return code.  A
    call succeeds exactly when the library was called and reported [Z_OK]. *)
Theorem deflate_error_collapse {Zl : Zlib}
  (src : ptr bytes) (src_len : N) (dst : ptr bytes) (inout_dst_len : ptr N) :
  let rc := wax_deflate_compress src src_len dst inout_dst_len in
  let rd := wax_deflate_decompress src src_len dst inout_dst_len in
  (forall cap n level zrc w,
     In (Call_compress2 cap n level zrc w) (calls rc) ->
     zrc <> Z_OK ->
     ret rc = -3 /\
     failure DeflateCompress (ret rc) = Some CompressionFailed) /\
  (ret rc = 0 <->
   exists cap n level w, In (Call_compress2 cap n level Z_OK w) (calls rc)) /\
  (forall cap n zrc w,
     In (Call_uncompress cap n zrc w) (calls rd) ->
     zrc <> Z_OK ->
     ret rd = -3 /\
     failure DeflateDecompress (ret rd) = Some DecompressionFailed) /\
  (ret rd = 0 <->
   exists cap n w, In (Call_uncompress cap n Z_OK w) (calls rd)).
Proof.
  intros rc rd. subst rc rd.
  split; [| split; [| split]].
  - on_path (wax_deflate_compress_path src src_len dst inout_dst_len);
      intros cap' n level zrc' w Hin Hz; simpl in Hin; try contradiction;
      destruct Hin as [E | []]; injection E as <- <- <- <- <-;
      [split; reflexivity | contradiction Hz; reflexivity].
  - on_path (wax_deflate_compress_path src src_len dst inout_dst_len);
      (split; [intros Hret; try discriminate Hret
              | intros (cap' & n & level & w & Hin); simpl in Hin;
                try contradiction ]).
    + destruct Hin as [E | []]. inversion E. congruence.
    + do 4 eexists. left. reflexivity.
    + reflexivity.
  - on_path (wax_deflate_decompress_path src src_len dst inout_dst_len);
      intros cap' n zrc' w Hin Hz; simpl in Hin; try contradiction;
      destruct Hin as [E | []]; injection E as <- <- <- <-;
      [split; reflexivity | contradiction Hz; reflexivity].
  - on_path (wax_deflate_decompress_path src src_len dst inout_dst_len);
      (split; [intros Hret; try discriminate Hret
              | intros (cap' & n & w & Hin); simpl in Hin;
                try contradiction ]).
    + destruct Hin as [E | []]. inversion E. congruence.
    + do 3 eexists. left. reflexivity.
    + reflexivity.
Qed.

(** The reference codec reports [Z_BUF_ERROR] for a destination that is too
    small, in either direction, and [Z_DATA_ERROR] for a stream without
    header; the shims answer -3 each time. *)
Lemma deflate_error_collapse_witness :
  ret (wax_deflate_compress (Some [x01; x02]) 2 (Some [x00]) (Some 1%N))
    = -3 /\
  ret (wax_deflate_decompress (Some [x00; x01; x02]) 3 (Some [x00])
         (Some 1%N)) = -3 /\
  ret (wax_deflate_decompress (Some [x01; x02]) 2 (Some [x00; x00])
         (Some 2%N)) = -3.
Proof.
  split; [| split].
  - refine (proj1 (proj1 (deflate_error_collapse
                            (Some [x01; x02]) 2 (Some [x00]) (Some 1%N))
                     1%N 2%N Z_DEFAULT_COMPRESSION Z_BUF_ERROR 1%N _ _));
      by_evaluation.
  - refine (proj1 (proj1 (proj2 (proj2 (deflate_error_collapse
                            (Some [x00; x01; x02]) 3 (Some [x00]) (Some 1%N))))
                     1%N 3%N Z_BUF_ERROR 1%N _ _));
      by_evaluation.
  - refine (proj1 (proj1 (proj2 (proj2 (deflate_error_collapse
                            (Some [x01; x02]) 2 (Some [x00; x00]) (Some 2%N))))
                     2%N 2%N Z_DATA_ERROR 2%N _ _));
      by_evaluation.
Defined.

(** C9, as the code has it.  Empty input, for libraries that honour their
    contract.  Compressing zero bytes from a non-null [src] into a buffer with
    sufficient capacity succeeds under both codecs; decompressing the bytes it
    produced with an expected length of 0 (fast codec) resp. a capacity of 0
    (DEFLATE) succeeds, and the DEFLATE length cell then holds 0.  The
    non-null [src] is needed: an empty input handed over as a null pointer is
    refused by the null check, whatever the capacity. *)
Theorem empty_input {L : LZ4} {Zl : Zlib}
  {CL : LZ4_contract L} {CZ : Zlib_contract Zl}
  (d e : bytes) (cap o : N) :
  (cap <= N.of_nat (length d))%N ->
  (LZ4_compressBound 0 <= Z.of_N cap <= INT32_MAX ->
   let r := wax_lz4_compress (Some []) 0 (Some d) cap (Some o) in
   ret r = 0 /\
   exists w d',
     len_mem r = Some w /\ dst_mem r = Some d' /\
     forall c : bytes,
       firstn (N.to_nat w) c = firstn (N.to_nat w) d' ->
       ret (wax_lz4_decompress (Some c) w (Some e) 0) = 0) /\
  ((compressBound 0 <= cap)%N ->
   Z.of_N cap <= UINT32_MAX ->
   let r := wax_deflate_compress (Some []) 0 (Some d) (Some cap) in
   ret r = 0 /\
   exists w d',
     len_mem r = Some w /\ dst_mem r = Some d' /\
     forall c : bytes,
       firstn (N.to_nat w) c = firstn (N.to_nat w) d' ->
       let r' := wax_deflate_decompress (Some c) w (Some e) (Some 0%N) in
       ret r' = 0 /\ len_mem r' = Some 0%N).
Proof.
  intros Hd. split.
  - intros Hcap.
    destruct (fast_round_trip_holds [] d e cap o) as (Hret & w & d' & Hw & Hd' & Hdec);
      try assumption; [simpl; lia | unfold LZ4_MAX_INPUT_SIZE; simpl; lia |].
    split; [exact Hret |]. exists w, d'.
    split; [exact Hw | split; [exact Hd' |]].
    intros c Hpre. exact (proj1 (Hdec c Hpre)).
  - intros Hbound Hcap.
    destruct (deflate_round_trip_holds [] d e cap)
      as (Hret & w & d' & Hw & Hd' & Hdec);
      try assumption; [unfold UINT32_MAX; simpl; lia |].
    split; [exact Hret |]. exists w, d'.
    split; [exact Hw | split; [exact Hd' |]].
    intros c Hpre.
    destruct (Hdec c 0%N Hpre) as (Hret' & Hlen & _);
      [simpl; lia | unfold UINT32_MAX; simpl; lia |].
    split; [exact Hret' | exact Hlen].
Qed.

(** The reference codec turns the empty input into its one-byte header, and
    that byte back into nothing. *)
Lemma empty_input_witness :
  ret (wax_lz4_compress (Some []) 0 (Some (repeat x00 16)) 16 (Some 0%N)) = 0 /\
  ret (wax_lz4_decompress (Some [x00]) 1 (Some []) 0) = 0 /\
  ret (wax_deflate_compress (Some []) 0 (Some (repeat x00 16)) (Some 16%N))
    = 0 /\
  len_mem (wax_deflate_decompress (Some [x00]) 1 (Some []) (Some 0%N))
    = Some 0%N.
Proof.
  destruct (empty_input (repeat x00 16) [] 16 0) as [Hfast Hdeflate];
    [by_evaluation |].
  destruct Hfast as (Hret & w & d' & Hw & Hd' & Hdec); [by_evaluation |].
  destruct Hdeflate as (Hret2 & w2 & d2 & Hw2 & Hd2 & Hdec2);
    [by_evaluation | by_evaluation |].
  vm_compute in Hw, Hd', Hw2, Hd2.
  injection Hw as <-. injection Hd' as <-.
  injection Hw2 as <-. injection Hd2 as <-.
  split; [exact Hret | split; [| split; [exact Hret2 |]]].
  - apply (Hdec [x00]). reflexivity.
  - apply (Hdec2 [x00]). reflexivity.
Defined.

(** The empty input as [(NULL, 0)], with the capacity that suffices for the
    empty input behind a non-null pointer: both compressors answer -1. *)
Lemma empty_input_null_src_refused :
  (ret (wax_lz4_compress (Some []) 0 (Some (repeat x00 16)) 16 (Some 0%N)) = 0 /\
   ret (wax_lz4_compress NULL 0 (Some (repeat x00 16)) 16 (Some 0%N)) = -1) /\
  (ret (wax_deflate_compress (Some []) 0 (Some (repeat x00 16)) (Some 16%N))
     = 0 /\
   ret (wax_deflate_compress NULL 0 (Some (repeat x00 16)) (Some 16%N)) = -1) /\
  failure FastCompress
    (ret (wax_lz4_compress NULL 0 (Some (repeat x00 16)) 16 (Some 0%N)))
    = Some InvalidArgument /\
  failure DeflateCompress
    (ret (wax_deflate_compress NULL 0 (Some (repeat x00 16)) (Some 16%N)))
    = Some InvalidArgument.
Proof.
  split; [split | split; [split | split]]; vm_compute; reflexivity.
Qed.

(** C10.  Error atomicity of the length outputs: whenever
    [wax_lz4_compress], [wax_deflate_compress] or [wax_deflate_decompress]
    returns a nonzero code, the value behind the length pointer ([out_len],
    resp. [inout_dst_len]) is exactly what the caller supplied; it is stored
    to only on the [return 0] path. *)
Theorem length_cell_untouched_on_error {L : LZ4} {Zl : Zlib}
  (src : ptr bytes) (src_len : N) (dst : ptr bytes) (dst_cap : N)
  (len : ptr N) :
  (ret (wax_lz4_compress src src_len dst dst_cap len) <> 0 ->
   len_mem (wax_lz4_compress src src_len dst dst_cap len) = len) /\
  (ret (wax_deflate_compress src src_len dst len) <> 0 ->
   len_mem (wax_deflate_compress src src_len dst len) = len) /\
  (ret (wax_deflate_decompress src src_len dst len) <> 0 ->
   len_mem (wax_deflate_decompress src src_len dst len) = len).
Proof.
  split; [| split].
  - on_path (wax_lz4_compress_path src src_len dst dst_cap len);
      intros Hret; solve [reflexivity | contradiction Hret; reflexivity].
  - on_path (wax_deflate_compress_path src src_len dst len);
      intros Hret; solve [reflexivity | contradiction Hret; reflexivity].
  - on_path (wax_deflate_decompress_path src src_len dst len);
      intros Hret; solve [reflexivity | contradiction Hret; reflexivity].
Qed.

(** Three failing calls: an output capacity below the bound, a declared
    capacity of one byte for two bytes of input, and a stream without header.
    Each leaves the length cell as the caller set it. *)
Lemma length_cell_untouched_on_error_witness :
  len_mem (wax_lz4_compress (Some [x01; x02]) 2 (Some [x00]) 1 (Some 7%N))
    = Some 7%N /\
  len_mem (wax_deflate_compress (Some [x01; x02]) 2 (Some [x00]) (Some 1%N))
    = Some 1%N /\
  len_mem (wax_deflate_decompress (Some [x01; x02]) 2 (Some [x00]) (Some 1%N))
    = Some 1%N.
Proof.
  split; [| split].
  - apply (length_cell_untouched_on_error (Some [x01; x02]) 2 (Some [x00]) 1).
    vm_compute. discriminate.
  - apply (length_cell_untouched_on_error (Some [x01; x02]) 2 (Some [x00]) 0).
    vm_compute. discriminate.
  - apply (length_cell_untouched_on_error (Some [x01; x02]) 2 (Some [x00]) 0).
    vm_compute. discriminate.
Defined.

(** ** Further properties of the shims *)

(** Is this a call of a transform (anything but the bound computation)? *)
Definition is_transform (c : lib_call) : bool :=
  match c with
  | Call_LZ4_compressBound _ _ => false
  | _ => true
  end.

(** The failures decided by the shim's own checks, before any transform. *)
Definition is_validation_failure (k : error_kind) : bool :=
  match k with
  | InvalidArgument | SizeLimitExceeded
  | BoundComputationFailed | OutputTooSmall => true
  | _ => false
  end.

(** What a library call may look like when the shim was given the sizes
    [src_len] and [cap]: the sizes reach the library with their value (no cast
    has changed them), within the width of the codec; the fast transform is
    only given a capacity that covers the bound; [compress2] gets the default
    level. *)
Definition faithful_call {L : LZ4} (src_len cap : N) (c : lib_call) : Prop :=
  match c with
  | Call_LZ4_compressBound n b =>
    n = Z.of_N src_len /\ n <= INT32_MAX /\ b = LZ4_compressBound n
  | Call_LZ4_compress_default n k _ =>
    n = Z.of_N src_len /\ k = Z.of_N cap /\ n <= INT32_MAX /\
    0 < LZ4_compressBound n <= k /\ k <= INT32_MAX
  | Call_LZ4_decompress_safe n k _ =>
    n = Z.of_N src_len /\ k = Z.of_N cap /\ n <= INT32_MAX /\ k <= INT32_MAX
  | Call_compress2 k n level _ _ =>
    n = src_len /\ k = cap /\ Z.of_N n <= UINT32_MAX /\
    Z.of_N k <= UINT32_MAX /\ level = Z_DEFAULT_COMPRESSION
  | Call_uncompress k n _ _ =>
    n = src_len /\ k = cap /\ Z.of_N n <= UINT32_MAX /\ Z.of_N k <= UINT32_MAX
  end.

(** X1.  The return codes form a closed set: each shim returns 0 or one of
    its negative codes (-1..-5 for [wax_lz4_compress], -1..-4 for
    [wax_lz4_decompress], -1..-3 for the DEFLATE shims), never a positive
    value, and every nonzero code is one of the named failures. *)
Theorem return_codes_closed {L : LZ4} {Zl : Zlib}
  (src : ptr bytes) (src_len : N) (dst : ptr bytes) (cap : N) (len : ptr N) :
  let fc := ret (wax_lz4_compress src src_len dst cap len) in
  let fd := ret (wax_lz4_decompress src src_len dst cap) in
  let dc := ret (wax_deflate_compress src src_len dst len) in
  let dd := ret (wax_deflate_decompress src src_len dst len) in
  (-5 <= fc <= 0 /\ (fc = 0 \/ exists k, failure FastCompress fc = Some k)) /\
  (-4 <= fd <= 0 /\ (fd = 0 \/ exists k, failure FastDecompress fd = Some k)) /\
  (-3 <= dc <= 0 /\ (dc = 0 \/ exists k, failure DeflateCompress dc = Some k)) /\
  (-3 <= dd <= 0 /\
   (dd = 0 \/ exists k, failure DeflateDecompress dd = Some k)).
Proof.
  intros fc fd dc dd. subst fc fd dc dd.
  split; [| split; [| split]].
  - on_path (wax_lz4_compress_path src src_len dst cap len);
      (split; [lia |]); first [left; reflexivity | right; eexists; reflexivity].
  - on_path (wax_lz4_decompress_path src src_len dst cap);
      (split; [lia |]); first [left; reflexivity | right; eexists; reflexivity].
  - on_path (wax_deflate_compress_path src src_len dst len);
      (split; [lia |]); first [left; reflexivity | right; eexists; reflexivity].
  - on_path (wax_deflate_decompress_path src src_len dst len);
      (split; [lia |]); first [left; reflexivity | right; eexists; reflexivity].
Qed.

(** X2.  [BoundComputationFailed].  With non-null pointers and both sizes
    within [INT32_MAX], [wax_lz4_compress] fails with
    [BoundComputationFailed] exactly when [LZ4_compressBound] gives no
    positive bound; for a library that honours its contract, exactly when
    the input is longer than [LZ4_MAX_INPUT_SIZE], whatever the capacity.
    The bound computation is then the only library call, and the output
    buffer and the length cell are untouched. *)
Theorem bound_computation_failed {L : LZ4} {CL : LZ4_contract L}
  (s d : bytes) (src_len dst_cap o : N) :
  Z.of_N src_len <= INT32_MAX ->
  Z.of_N dst_cap <= INT32_MAX ->
  let r := wax_lz4_compress (Some s) src_len (Some d) dst_cap (Some o) in
  (failure FastCompress (ret r) = Some BoundComputationFailed <->
   LZ4_compressBound (Z.of_N src_len) <= 0) /\
  (LZ4_compressBound (Z.of_N src_len) <= 0 <->
   LZ4_MAX_INPUT_SIZE < Z.of_N src_len) /\
  (LZ4_MAX_INPUT_SIZE < Z.of_N src_len ->
   calls r = [Call_LZ4_compressBound (Z.of_N src_len) 0] /\
   dst_mem r = Some d /\ len_mem r = Some o).
Proof.
  intros Hsrc Hcap r. subst r. unfold INT32_MAX in Hsrc, Hcap.
  assert (Hspec : LZ4_compressBound (Z.of_N src_len) <= 0 <->
                  LZ4_MAX_INPUT_SIZE < Z.of_N src_len).
  { rewrite LZ4_compressBound_spec.
    destruct (Z.of_N src_len <? 0) eqn:Eneg; [apply Z.ltb_lt in Eneg; lia |].
    destruct (LZ4_MAX_INPUT_SIZE <? Z.of_N src_len) eqn:Emax; simpl.
    - apply Z.ltb_lt in Emax. split; [intros _; exact Emax | lia].
    - apply Z.ltb_ge in Emax.
      assert (0 <= Z.of_N src_len / 255) by (apply Z.div_pos; lia).
      split; lia. }
  assert (Hzero : LZ4_MAX_INPUT_SIZE < Z.of_N src_len ->
                  LZ4_compressBound (Z.of_N src_len) = 0).
  { intros Hbig. rewrite LZ4_compressBound_spec.
    replace (LZ4_MAX_INPUT_SIZE <? Z.of_N src_len) with true
      by (symmetry; apply Z.ltb_lt; exact Hbig).
    rewrite orb_true_r. reflexivity. }
  split; [| split; [exact Hspec |]].
  - on_path (wax_lz4_compress_path (Some s) src_len (Some d) dst_cap (Some o));
      simpl failure;
      first [no_null
            | split; intros Hx; first [reflexivity | discriminate Hx | lia]].
  - intros Hbig. pose proof (proj2 Hspec Hbig) as Hle.
    on_path (wax_lz4_compress_path (Some s) src_len (Some d) dst_cap (Some o));
      first [no_null | lia | idtac].
    rewrite (Hzero Hbig). repeat split; reflexivity.
Qed.

(** One byte more than [LZ4_MAX_INPUT_SIZE], with any capacity. *)
Lemma bound_computation_failed_witness :
  let r :=
    wax_lz4_compress (Some [x01]) 2113929217 (Some [x00]) 2147483647
      (Some 7%N) in
  calls r = [Call_LZ4_compressBound 2113929217 0] /\
  dst_mem r = Some [x00] /\ len_mem r = Some 7%N.
Proof.
  refine (proj2 (proj2 (bound_computation_failed
                          [x01] [x00] 2113929217 2147483647 7 _ _)) _);
    by_evaluation.
Defined.

Ltac each_call :=
  match goal with
  | |- forall c, In c _ -> _ =>
    let c := fresh "c" in
    let Hin := fresh "Hin" in
    intros c Hin; simpl in Hin;
    repeat (destruct Hin as [Hin | Hin]; [subst c |]);
    try contradiction
  end.

(** X3.  What reaches the libraries.  Every call a shim makes into liblz4 or
    zlib carries the caller's sizes unchanged (the casts to [int] and [uLong]
    never truncate, because the size check has passed) and within the width
    of the codec; [LZ4_compress_default] is only called with a capacity that
    covers a positive bound; [compress2] only with the default level.  A
    shim with a null length pointer makes no call. *)
Theorem library_calls_faithful {L : LZ4} {Zl : Zlib}
  (src : ptr bytes) (src_len : N) (dst : ptr bytes) (cap : N) (len : ptr N) :
  (forall c, In c (calls (wax_lz4_compress src src_len dst cap len)) ->
             faithful_call src_len cap c) /\
  (forall c, In c (calls (wax_lz4_decompress src src_len dst cap)) ->
             faithful_call src_len cap c) /\
  (forall c, In c (calls (wax_deflate_compress src src_len dst len)) ->
             exists k, len = Some k /\ faithful_call src_len k c) /\
  (forall c, In c (calls (wax_deflate_decompress src src_len dst len)) ->
             exists k, len = Some k /\ faithful_call src_len k c).
Proof.
  split; [| split; [| split]].
  - on_path (wax_lz4_compress_path src src_len dst cap len); each_call;
      unfold faithful_call, INT32_MAX; repeat split; lia.
  - on_path (wax_lz4_decompress_path src src_len dst cap); each_call;
      unfold faithful_call, INT32_MAX; repeat split; lia.
  - on_path (wax_deflate_compress_path src src_len dst len); each_call;
      eexists; (split; [reflexivity |]);
      unfold faithful_call, UINT32_MAX; repeat split; lia.
  - on_path (wax_deflate_decompress_path src src_len dst len); each_call;
      eexists; (split; [reflexivity |]);
      unfold faithful_call, UINT32_MAX; repeat split; lia.
Qed.

(** A DEFLATE call with sizes above [INT32_MAX]: zlib is given 3000000000,
    not a truncated value. *)
Lemma library_calls_faithful_witness :
  faithful_call (L := Stored_LZ4) 3000000000 3000000000
    (Call_compress2 3000000000 3000000000 Z_DEFAULT_COMPRESSION
       Z_BUF_ERROR 3000000000).
Proof.
  destruct (proj1 (proj2 (proj2 (library_calls_faithful
              (Some [x01]) 3000000000 (Some [x00]) 0
              (Some 3000000000%N))))
              (Call_compress2 3000000000 3000000000 Z_DEFAULT_COMPRESSION
                 Z_BUF_ERROR 3000000000))
    as (k & Hk & Hcall).
  - by_evaluation.
  - injection Hk as <-. exact Hcall.
Defined.

(** X4.  Validation failures have no effect.  When a shim fails with
    [InvalidArgument], [SizeLimitExceeded], [BoundComputationFailed] or
    [OutputTooSmall], no transform has been called and the output buffer and
    the length cell are exactly as the caller passed them. *)
Theorem validation_failure_no_effect {L : LZ4} {Zl : Zlib}
  (src : ptr bytes) (src_len : N) (dst : ptr bytes) (cap : N) (len : ptr N)
  (k : error_kind) :
  is_validation_failure k = true ->
  let fc := wax_lz4_compress src src_len dst cap len in
  let fd := wax_lz4_decompress src src_len dst cap in
  let dc := wax_deflate_compress src src_len dst len in
  let dd := wax_deflate_decompress src src_len dst len in
  (failure FastCompress (ret fc) = Some k ->
   existsb is_transform (calls fc) = false /\
   dst_mem fc = dst /\ len_mem fc = len) /\
  (failure FastDecompress (ret fd) = Some k ->
   existsb is_transform (calls fd) = false /\ dst_mem fd = dst) /\
  (failure DeflateCompress (ret dc) = Some k ->
   existsb is_transform (calls dc) = false /\
   dst_mem dc = dst /\ len_mem dc = len) /\
  (failure DeflateDecompress (ret dd) = Some k ->
   existsb is_transform (calls dd) = false /\
   dst_mem dd = dst /\ len_mem dd = len).
Proof.
  intros Hk fc fd dc dd. subst fc fd dc dd.
  split; [| split; [| split]].
  - on_path (wax_lz4_compress_path src src_len dst cap len);
      simpl failure; intros Hf;
      first [ repeat split; reflexivity
            | injection Hf as <-; discriminate Hk
            | discriminate Hf ].
  - on_path (wax_lz4_decompress_path src src_len dst cap);
      simpl failure; intros Hf;
      first [ repeat split; reflexivity
            | injection Hf as <-; discriminate Hk
            | discriminate Hf ].
  - on_path (wax_deflate_compress_path src src_len dst len);
      simpl failure; intros Hf;
      first [ repeat split; reflexivity
            | injection Hf as <-; discriminate Hk
            | discriminate Hf ].
  - on_path (wax_deflate_decompress_path src src_len dst len);
      simpl failure; intros Hf;
      first [ repeat split; reflexivity
            | injection Hf as <-; discriminate Hk
            | discriminate Hf ].
Qed.

(** An input longer than liblz4 accepts: the call fails after the bound
    computation and touches nothing. *)
Lemma validation_failure_no_effect_witness :
  let r :=
    wax_lz4_compress (Some [x01]) 2113929217 (Some [x05]) 9 (Some 7%N) in
  existsb is_transform (calls r) = false /\
  dst_mem r = Some [x05] /\ len_mem r = Some 7%N.
Proof.
  refine (proj1 (validation_failure_no_effect
                   (Some [x01]) 2113929217 (Some [x05]) 9 (Some 7%N)
                   BoundComputationFailed _) _);
    by_evaluation.
Defined.

(** X5.  Exact-length contract of [wax_lz4_decompress], for a library that
    honours its contract.  Given the compressed form of [b] and an output
    buffer that holds [dst_len] bytes: the call succeeds exactly when
    [dst_len] is the length of [b]; a shorter [dst_len] gives
    [DecompressionFailed], a longer one [LengthMismatch]. *)
Theorem fast_decompress_exact_length {L : LZ4} {CL : LZ4_contract L}
  (b d0 : bytes) (cap w : Z) (d' c e : bytes) (dst_len : N) :
  LZ4_compress_default b d0 (Z.of_nat (length b)) cap = (w, d') ->
  0 < w ->
  firstn (Z.to_nat w) c = firstn (Z.to_nat w) d' ->
  Z.of_N dst_len <= INT32_MAX ->
  (dst_len <= N.of_nat (length e))%N ->
  let r := wax_lz4_decompress (Some c) (Z.to_N w) (Some e) dst_len in
  (ret r = 0 <-> dst_len = N.of_nat (length b)) /\
  ((dst_len < N.of_nat (length b))%N ->
   failure FastDecompress (ret r) = Some DecompressionFailed) /\
  ((N.of_nat (length b) < dst_len)%N ->
   failure FastDecompress (ret r) = Some LengthMismatch).
Proof.
  intros Hcall Hw Hpre Hmax He r. subst r.
  pose proof (LZ4_compress_default_int b d0 (Z.of_nat (length b)) cap) as Hint.
  rewrite Hcall in Hint. destruct Hint as [_ Hwmax]. simpl in Hwmax.
  rewrite <- (N2Z.id dst_len).
  destruct (Z.of_N dst_len <? Z.of_nat (length b)) eqn:Ecmp.
  - apply Z.ltb_lt in Ecmp.
    pose proof (LZ4_decompress_safe_overflow b d0 cap w d' c e
                  (Z.of_N dst_len) Hcall Hw Hpre) as Hneg.
    destruct (LZ4_decompress_safe c e w (Z.of_N dst_len))
      as [written e'] eqn:Hdec.
    simpl in Hneg.
    rewrite (wax_lz4_decompress_run c e w (Z.of_N dst_len) written e');
      try lia; [| exact Hdec].
    cbn [ret].
    replace (written <? 0) with true by (symmetry; apply Z.ltb_lt; lia).
    split; [split; [discriminate | lia] | split; [reflexivity | lia]].
  - apply Z.ltb_ge in Ecmp.
    destruct (LZ4_decompress_safe_inverts b d0 cap w d' c e
                (Z.of_N dst_len) Hcall Hw Hpre) as (e' & Hdec & _); [lia |].
    rewrite (wax_lz4_decompress_run c e w (Z.of_N dst_len)
               (Z.of_nat (length b)) e'); try lia; [| exact Hdec].
    cbn [ret].
    replace (Z.of_nat (length b) <? 0) with false
      by (symmetry; apply Z.ltb_ge; lia).
    destruct (Z.of_nat (length b) =? Z.of_N dst_len) eqn:Eeq.
    + apply Z.eqb_eq in Eeq.
      split; [split; [lia | reflexivity] | split; lia].
    + apply Z.eqb_neq in Eeq.
      split; [split; [discriminate | lia] | split; [lia | reflexivity]].
Qed.

(** The reference codec stores [1; 2; 3] in four bytes.  Asked for four bytes
    of output, the shim reports [LengthMismatch]. *)
Lemma fast_decompress_exact_length_witness :
  failure FastDecompress
    (ret (wax_lz4_decompress (Some [x00; x01; x02; x03]) 4
            (Some (repeat x00 4)) 4))
    = Some LengthMismatch.
Proof.
  refine (proj2 (proj2 (fast_decompress_exact_length
                          [x01; x02; x03] (repeat x00 19) 19 4
                          (Stored.header :: [x01; x02; x03] ++ repeat x00 15)
                          [x00; x01; x02; x03] (repeat x00 4) 4
                          _ _ _ _ _)) _);
    by_evaluation.
Defined.

(** X6.  What success of [wax_lz4_compress] requires.  A call that returns 0
    had non-null pointers, a capacity of at most [INT32_MAX] that covers the
    positive worst-case bound of the input length, and stores a count between
    1 and [INT32_MAX]; for a library that honours its contract the input is
    at most [LZ4_MAX_INPUT_SIZE] long and the capacity at least
    [src_len + src_len / 255 + 16], however well the data compresses.  In
    particular a capacity below 16 never succeeds. *)
Theorem fast_compress_success_requires {L : LZ4} {CL : LZ4_contract L}
  (src : ptr bytes) (src_len : N) (dst : ptr bytes) (dst_cap : N)
  (out_len : ptr N) :
  let r := wax_lz4_compress src src_len dst dst_cap out_len in
  ret r = 0 ->
  (src <> NULL /\ dst <> NULL /\ out_len <> NULL) /\
  0 < LZ4_compressBound (Z.of_N src_len) <= Z.of_N dst_cap /\
  Z.of_N dst_cap <= INT32_MAX /\
  Z.of_N src_len <= LZ4_MAX_INPUT_SIZE /\
  Z.of_N src_len + Z.of_N src_len / 255 + 16 <= Z.of_N dst_cap /\
  16 <= Z.of_N dst_cap /\
  exists w, len_mem r = Some w /\ 1 <= Z.of_N w <= INT32_MAX.
Proof.
  intros r Hret. subst r. revert Hret.
  on_path (wax_lz4_compress_path src src_len dst dst_cap out_len);
    intros Hret; try discriminate Hret.
  match goal with
  | Hb : 0 < LZ4_compressBound _ <= _,
    Hc : LZ4_compress_default _ _ _ _ = (?w, _) |- _ =>
    pose proof (LZ4_compress_default_int s d (Z.of_N src_len)
                  (Z.of_N dst_cap)) as [_ Hwmax];
    rewrite Hc in Hwmax; simpl in Hwmax;
    pose proof Hb as Hform; rewrite LZ4_compressBound_spec in Hform
  end.
  destruct ((Z.of_N src_len <? 0) || (LZ4_MAX_INPUT_SIZE <? Z.of_N src_len))
    eqn:Erange; [lia |].
  apply orb_false_iff in Erange. destruct Erange as [_ Emax].
  apply Z.ltb_ge in Emax.
  assert (0 <= Z.of_N src_len / 255) by (apply Z.div_pos; lia).
  unfold INT32_MAX in *.
  repeat split; try discriminate; try lia.
  eexists. split; [reflexivity | lia].
Qed.

(** Two bytes into an 18-byte buffer on the reference codec. *)
Lemma fast_compress_success_requires_witness :
  exists w,
    len_mem (wax_lz4_compress (Some [x01; x02]) 2 (Some (repeat x00 18)) 18
               (Some 0%N)) = Some w /\
    1 <= Z.of_N w <= INT32_MAX.
Proof.
  refine (proj2 (proj2 (proj2 (proj2 (proj2 (proj2
            (fast_compress_success_requires
               (Some [x01; x02]) 2 (Some (repeat x00 18)) 18 (Some 0%N)
               _)))))));
    by_evaluation.
Defined.

(** X7.  In/out contract of [wax_deflate_decompress].  A call that returns 0
    had non-null pointers and sizes within [UINT32_MAX]; it made exactly one
    library call, [uncompress] on the caller's buffers with the caller's
    capacity as [*destLen] and [src_len] as [sourceLen], and that call
    reported [Z_OK]; the output buffer is as [uncompress] left it and the
    length cell holds the length [uncompress] left in [*destLen]. *)
Theorem deflate_decompress_in_out {Zl : Zlib}
  (src : ptr bytes) (src_len : N) (dst : ptr bytes) (inout_dst_len : ptr N) :
  let r := wax_deflate_decompress src src_len dst inout_dst_len in
  ret r = 0 ->
  exists (s d : bytes) (cap w : N) (d' : bytes),
    src = Some s /\ dst = Some d /\ inout_dst_len = Some cap /\
    Z.of_N src_len <= UINT32_MAX /\ Z.of_N cap <= UINT32_MAX /\
    uncompress d cap s src_len = (Z_OK, w, d') /\
    calls r = [Call_uncompress cap src_len Z_OK w] /\
    dst_mem r = Some d' /\
    len_mem r = Some w.
Proof.
  intros r. subst r.
  on_path (wax_deflate_decompress_path src src_len dst inout_dst_len);
    intros Hret; try discriminate Hret.
  match goal with
  | E : uncompress ?d ?cap ?s _ = (Z_OK, ?w, ?d') |- _ =>
    exists s, d, cap, w, d'
  end.
  unfold UINT32_MAX.
  repeat split; try reflexivity; try assumption; lia.
Qed.

(** The reference codec: the three stored bytes of [1; 2] decompressed into
    an 8-byte buffer with the cell at 8; the cell comes back as 2. *)
Lemma deflate_decompress_in_out_witness :
  exists (s d : bytes) (cap w : N) (d' : bytes),
    Some [x00; x01; x02] = Some s /\ Some (repeat x00 8) = Some d /\
    Some 8%N = Some cap /\
    Z.of_N 3 <= UINT32_MAX /\ Z.of_N cap <= UINT32_MAX /\
    uncompress d cap s 3 = (Z_OK, w, d') /\
    calls (wax_deflate_decompress (Some [x00; x01; x02]) 3
             (Some (repeat x00 8)) (Some 8%N))
      = [Call_uncompress cap 3 Z_OK w] /\
    dst_mem (wax_deflate_decompress (Some [x00; x01; x02]) 3
               (Some (repeat x00 8)) (Some 8%N)) = Some d' /\
    len_mem (wax_deflate_decompress (Some [x00; x01; x02]) 3
               (Some (repeat x00 8)) (Some 8%N)) = Some w.
Proof.
  refine (deflate_decompress_in_out
            (Some [x00; x01; x02]) 3 (Some (repeat x00 8)) (Some 8%N) _).
  by_evaluation.
Defined.
